(** * CanvasPage: the canvas interaction engine

    A shallow embedding of [src/canvas/src/components/Canvas.tsx]: the element
    store, the undo/redo history, the viewport (zoom and pan), hit-testing and
    the pointer, keyboard and text-overlay handlers of the [Canvas] component,
    followed by the properties stated for them.

    Modelling conventions.
    - JavaScript numbers are exact rationals ([Q]); rounding of IEEE doubles,
      infinities and NaN are outside the model.  Results that are numbers are
      compared with [==] ([Qeq]).
    - A React event handler is a function from the state its closure captured
      to the state after all its setters ran.  Values read inside the handler
      ([history], [elements], ...) come from the captured state; functional
      updaters ([setElements(prev => ...)]) are applied to the state
      accumulated so far.
    - Arrays and objects are never mutated in place by the component (every
      update goes through a spread copy), so snapshots are plain values.
    - The text a user types (the overlay's value and the content of a text
      element) is a [JsString]: the sequence of its UTF-16 code units, as
      JavaScript strings are.  Identifiers, colours, key names and toast
      messages are only compared or tested for emptiness and are built from
      ASCII templates; they are [string]s. *)

From Stdlib Require Import List String Ascii Bool Arith NArith ZArith.
From Stdlib Require Import QArith Qminmax Qabs Lia Lqa DecimalString.
Import ListNotations.

Set Implicit Arguments.

Module Canvas.

(** ** Small JavaScript helpers *)

Local Open Scope Q_scope.

Record Point := mkPoint { px : Q; py : Q }.

(** A JavaScript string as its UTF-16 code units; [js] reads an ASCII
    literal. *)
Definition JsString := list N.

Definition js (s : string) : JsString :=
  map Ascii.N_of_ascii (list_ascii_of_string s).

(** The code unit of ['\n']. *)
Definition newline : N := 10%N.

(** [c] is removed by [String.prototype.trim]: the WhiteSpace and
    LineTerminator code points of ECMAScript, which all are single code
    units.  TAB, LF, VT, FF, CR (9-13), SPACE (32), NO-BREAK SPACE (160),
    OGHAM SPACE MARK (U+1680), EN QUAD to HAIR SPACE (U+2000-U+200A), LINE
    and PARAGRAPH SEPARATOR (U+2028, U+2029), NARROW NO-BREAK SPACE (U+202F),
    MEDIUM MATHEMATICAL SPACE (U+205F), IDEOGRAPHIC SPACE (U+3000) and the
    BYTE ORDER MARK (U+FEFF). *)
Definition isWhiteSpace (c : N) : bool :=
  (((9 <=? c) && (c <=? 13)) || (c =? 32) || (c =? 160) || (c =? 5760)
   || ((8192 <=? c) && (c <=? 8202)) || (c =? 8232) || (c =? 8233)
   || (c =? 8239) || (c =? 8287) || (c =? 12288) || (c =? 65279))%N.

Fixpoint trimStart (s : JsString) : JsString :=
  match s with
  | [] => []
  | c :: rest => if isWhiteSpace c then trimStart rest else s
  end.

Fixpoint trimEnd (s : JsString) : JsString :=
  match s with
  | [] => []
  | c :: rest =>
      match trimEnd rest with
      | [] => if isWhiteSpace c then [] else [c]
      | t => c :: t
      end
  end.

Definition trim (s : JsString) : JsString := trimEnd (trimStart s).

(** Truthiness of a string: only the empty string is falsy. *)
Definition truthy (s : string) : bool :=
  match s with EmptyString => false | String _ _ => true end.

Definition truthyText (s : JsString) : bool :=
  match s with [] => false | _ :: _ => true end.

(** Truthiness of a [string | null] value. *)
Definition truthyOpt (o : option string) : bool :=
  match o with Some s => truthy s | None => false end.

(** Truthiness of an optional boolean field ([undefined] is falsy). *)
Definition flag (o : option bool) : bool :=
  match o with Some b => b | None => false end.

(** [s.split('\n')]: always at least one line. *)
Fixpoint splitLines (s : JsString) : list JsString :=
  match s with
  | [] => [[]]
  | c :: rest =>
      if (c =? newline)%N then [] :: splitLines rest
      else match splitLines rest with
           | [] => [[c]]
           | l :: ls => (c :: l) :: ls
           end
  end.

(** [Math.max(...l)] and [Math.min(...l)] for a list known to be non-empty,
    given as its head and tail. *)
Definition maxOf (h : Q) (t : list Q) : Q := fold_left Qmax t h.
Definition minOf (h : Q) (t : list Q) : Q := fold_left Qmin t h.

(** [Math.max(...l)] for a list produced by [splitLines]; the empty case
    (which would be [-Infinity]) does not arise there. *)
Definition maxList (l : list Q) : Q :=
  match l with
  | [] => 0
  | h :: t => maxOf h t
  end.

(** [x >= y] and [x < y] on numbers. *)
Definition geq (x y : Q) : bool := Qle_bool y x.
Definition leq (x y : Q) : bool := Qle_bool x y.
Definition ltq (x y : Q) : bool := negb (Qle_bool y x).

(** Decimal rendering of a millisecond timestamp, as in a template literal. *)
Definition showN (n : N) : string := NilZero.string_of_uint (N.to_uint n).

(** ** Collaborators *)

(** Modelled from the spec: the [Tool] type is declared in [pages/Index],
    which is outside the sources; the spec lists the five tools the component
    compares [activeTool] against. *)
Inductive Tool := SelectTool | PencilTool | EraserTool | TextTool | PanTool.

Definition Tool_eqb (a b : Tool) : bool :=
  match a, b with
  | SelectTool, SelectTool | PencilTool, PencilTool | EraserTool, EraserTool
  | TextTool, TextTool | PanTool, PanTool => true
  | _, _ => false
  end.

(** The eight resize handles, in the order of the [handles] table of
    [getResizeHandle]. *)
Module Handle.
Inductive t := nw | ne | sw | se | n | s | w | e.
End Handle.

Record DOMRect := mkRect { left : Q; top : Q }.

(** The mounted [<canvas>]: its bounding rectangle and whether
    [getContext("2d")] yields a context. *)
Record CanvasNode := mkCanvas { rect : DOMRect; has2d : bool }.

Record MouseEvent := mkMouse {
  clientX : Q;
  clientY : Q;
  button : Z;
  ctrlKey : bool
}.

Record KeyboardEvent := mkKey { key : string; shiftKey : bool }.

Record Bounds := mkBounds { bx : Q; by_ : Q; bwidth : Q; bheight : Q }.

Record EraserPosition := mkEraser { ex : Q; ey : Q; visible : bool }.

Section Component.

(** The type of the [pressure] drawing setting; its declaration lives in
    [pages/Index] and the component only copies the value. *)
Context {Pressure : Type}.

(** The scratch 2D context of [getElementBounds]: [None] when
    [getContext('2d')] returns null, otherwise the width that [measureText]
    reports for a line at a given font size in pixels. *)
Variable measureText : option (Q -> JsString -> Q).

(** Modelled from the spec: [DrawingSettings] is declared in [pages/Index];
    the spec gives its fields as colour, stroke size and pressure. *)
Record DrawingSettings := mkSettings {
  ds_color : string;
  ds_size : Q;
  ds_pressure : Pressure
}.

(** ** Elements

    The [type] tag and the shape of [data] always go together in the
    component, so the pair is one tagged payload.  The points of a path are
    kept as a head and a tail: the only place that builds a path
    ([handleMouseUp]) requires [currentPath.length > 0], and dragging maps
    over the points. *)
Inductive ElementData :=
| PathData (p0 : Point) (ps : list Point) (color : string) (size : Q)
           (pressure : Pressure)
| TextData (text : JsString) (color : string) (size : Q).

Record CanvasElement := mkElement {
  el_id : string;
  el_data : ElementData;
  el_x : Q;
  el_y : Q;
  el_width : option Q;
  el_height : option Q;
  el_selected : option bool;
  el_editing : option bool
}.

Definition isText (el : CanvasElement) : bool :=
  match el_data el with TextData _ _ _ => true | PathData _ _ _ _ _ => false end.

Definition points (d : ElementData) : list Point :=
  match d with
  | PathData p0 ps _ _ _ => p0 :: ps
  | TextData _ _ _ => []
  end.

Definition with_data (d : ElementData) (el : CanvasElement) :=
  mkElement (el_id el) d (el_x el) (el_y el) (el_width el) (el_height el)
            (el_selected el) (el_editing el).
Definition with_xy (x y : Q) (el : CanvasElement) :=
  mkElement (el_id el) (el_data el) x y (el_width el) (el_height el)
            (el_selected el) (el_editing el).
Definition with_selected (b : bool) (el : CanvasElement) :=
  mkElement (el_id el) (el_data el) (el_x el) (el_y el) (el_width el)
            (el_height el) (Some b) (el_editing el).
Definition with_editing (b : bool) (el : CanvasElement) :=
  mkElement (el_id el) (el_data el) (el_x el) (el_y el) (el_width el)
            (el_height el) (el_selected el) (Some b).

(** ** Component state: one field per [useState] cell, plus the log of
    [toast.success] notifications.

    [historyIndex] is a natural number: it starts at 0 and is only set to a
    length minus one, to itself plus one, or to itself minus one under the
    guard [historyIndex > 0].  [resizeHandle] and [hoverHandle] only ever
    hold [null] or an id returned by [getResizeHandle]. *)
Record State := mkState {
  isDrawing : bool;
  currentPath : list Point;
  elements : list CanvasElement;
  history : list (list CanvasElement);
  historyIndex : nat;
  zoom : Q;
  isPanning : bool;
  panOffset : Point;
  lastPanPoint : Point;
  selectedElement : option string;
  editingText : option string;
  textInput : JsString;
  textPosition : Point;
  isDragging : bool;
  isResizing : bool;
  resizeHandle : option Handle.t;
  dragStart : Point;
  eraserPosition : EraserPosition;
  hoverHandle : option Handle.t;
  toasts : list string
}.

Definition initialState : State :=
  mkState false [] [] [[]] 0%nat 1 false (mkPoint 0 0) (mkPoint 0 0) None None
          [] (mkPoint 0 0) false false None (mkPoint 0 0)
          (mkEraser 0 0 false) None [].

(** The setters returned by [useState], as state transformers. *)
Definition setIsDrawing (v : bool) (st : State) : State :=
  mkState v (currentPath st) (elements st) (history st) (historyIndex st)
          (zoom st) (isPanning st) (panOffset st) (lastPanPoint st)
          (selectedElement st) (editingText st) (textInput st)
          (textPosition st) (isDragging st) (isResizing st) (resizeHandle st)
          (dragStart st) (eraserPosition st) (hoverHandle st) (toasts st).
Definition setCurrentPath (v : list Point) (st : State) : State :=
  mkState (isDrawing st) v (elements st) (history st) (historyIndex st)
          (zoom st) (isPanning st) (panOffset st) (lastPanPoint st)
          (selectedElement st) (editingText st) (textInput st)
          (textPosition st) (isDragging st) (isResizing st) (resizeHandle st)
          (dragStart st) (eraserPosition st) (hoverHandle st) (toasts st).
Definition setElements (v : list CanvasElement) (st : State) : State :=
  mkState (isDrawing st) (currentPath st) v (history st) (historyIndex st)
          (zoom st) (isPanning st) (panOffset st) (lastPanPoint st)
          (selectedElement st) (editingText st) (textInput st)
          (textPosition st) (isDragging st) (isResizing st) (resizeHandle st)
          (dragStart st) (eraserPosition st) (hoverHandle st) (toasts st).
Definition setHistory (v : list (list CanvasElement)) (st : State) : State :=
  mkState (isDrawing st) (currentPath st) (elements st) v (historyIndex st)
          (zoom st) (isPanning st) (panOffset st) (lastPanPoint st)
          (selectedElement st) (editingText st) (textInput st)
          (textPosition st) (isDragging st) (isResizing st) (resizeHandle st)
          (dragStart st) (eraserPosition st) (hoverHandle st) (toasts st).
Definition setHistoryIndex (v : nat) (st : State) : State :=
  mkState (isDrawing st) (currentPath st) (elements st) (history st) v
          (zoom st) (isPanning st) (panOffset st) (lastPanPoint st)
          (selectedElement st) (editingText st) (textInput st)
          (textPosition st) (isDragging st) (isResizing st) (resizeHandle st)
          (dragStart st) (eraserPosition st) (hoverHandle st) (toasts st).
Definition setZoom (v : Q) (st : State) : State :=
  mkState (isDrawing st) (currentPath st) (elements st) (history st)
          (historyIndex st) v (isPanning st) (panOffset st) (lastPanPoint st)
          (selectedElement st) (editingText st) (textInput st)
          (textPosition st) (isDragging st) (isResizing st) (resizeHandle st)
          (dragStart st) (eraserPosition st) (hoverHandle st) (toasts st).
Definition setIsPanning (v : bool) (st : State) : State :=
  mkState (isDrawing st) (currentPath st) (elements st) (history st)
          (historyIndex st) (zoom st) v (panOffset st) (lastPanPoint st)
          (selectedElement st) (editingText st) (textInput st)
          (textPosition st) (isDragging st) (isResizing st) (resizeHandle st)
          (dragStart st) (eraserPosition st) (hoverHandle st) (toasts st).
Definition setPanOffset (v : Point) (st : State) : State :=
  mkState (isDrawing st) (currentPath st) (elements st) (history st)
          (historyIndex st) (zoom st) (isPanning st) v (lastPanPoint st)
          (selectedElement st) (editingText st) (textInput st)
          (textPosition st) (isDragging st) (isResizing st) (resizeHandle st)
          (dragStart st) (eraserPosition st) (hoverHandle st) (toasts st).
Definition setLastPanPoint (v : Point) (st : State) : State :=
  mkState (isDrawing st) (currentPath st) (elements st) (history st)
          (historyIndex st) (zoom st) (isPanning st) (panOffset st) v
          (selectedElement st) (editingText st) (textInput st)
          (textPosition st) (isDragging st) (isResizing st) (resizeHandle st)
          (dragStart st) (eraserPosition st) (hoverHandle st) (toasts st).
Definition setSelectedElement (v : option string) (st : State) : State :=
  mkState (isDrawing st) (currentPath st) (elements st) (history st)
          (historyIndex st) (zoom st) (isPanning st) (panOffset st)
          (lastPanPoint st) v (editingText st) (textInput st)
          (textPosition st) (isDragging st) (isResizing st) (resizeHandle st)
          (dragStart st) (eraserPosition st) (hoverHandle st) (toasts st).
Definition setEditingText (v : option string) (st : State) : State :=
  mkState (isDrawing st) (currentPath st) (elements st) (history st)
          (historyIndex st) (zoom st) (isPanning st) (panOffset st)
          (lastPanPoint st) (selectedElement st) v (textInput st)
          (textPosition st) (isDragging st) (isResizing st) (resizeHandle st)
          (dragStart st) (eraserPosition st) (hoverHandle st) (toasts st).
Definition setTextInput (v : JsString) (st : State) : State :=
  mkState (isDrawing st) (currentPath st) (elements st) (history st)
          (historyIndex st) (zoom st) (isPanning st) (panOffset st)
          (lastPanPoint st) (selectedElement st) (editingText st) v
          (textPosition st) (isDragging st) (isResizing st) (resizeHandle st)
          (dragStart st) (eraserPosition st) (hoverHandle st) (toasts st).
Definition setTextPosition (v : Point) (st : State) : State :=
  mkState (isDrawing st) (currentPath st) (elements st) (history st)
          (historyIndex st) (zoom st) (isPanning st) (panOffset st)
          (lastPanPoint st) (selectedElement st) (editingText st)
          (textInput st) v (isDragging st) (isResizing st) (resizeHandle st)
          (dragStart st) (eraserPosition st) (hoverHandle st) (toasts st).
Definition setIsDragging (v : bool) (st : State) : State :=
  mkState (isDrawing st) (currentPath st) (elements st) (history st)
          (historyIndex st) (zoom st) (isPanning st) (panOffset st)
          (lastPanPoint st) (selectedElement st) (editingText st)
          (textInput st) (textPosition st) v (isResizing st) (resizeHandle st)
          (dragStart st) (eraserPosition st) (hoverHandle st) (toasts st).
Definition setIsResizing (v : bool) (st : State) : State :=
  mkState (isDrawing st) (currentPath st) (elements st) (history st)
          (historyIndex st) (zoom st) (isPanning st) (panOffset st)
          (lastPanPoint st) (selectedElement st) (editingText st)
          (textInput st) (textPosition st) (isDragging st) v (resizeHandle st)
          (dragStart st) (eraserPosition st) (hoverHandle st) (toasts st).
Definition setResizeHandle (v : option Handle.t) (st : State) : State :=
  mkState (isDrawing st) (currentPath st) (elements st) (history st)
          (historyIndex st) (zoom st) (isPanning st) (panOffset st)
          (lastPanPoint st) (selectedElement st) (editingText st)
          (textInput st) (textPosition st) (isDragging st) (isResizing st) v
          (dragStart st) (eraserPosition st) (hoverHandle st) (toasts st).
Definition setDragStart (v : Point) (st : State) : State :=
  mkState (isDrawing st) (currentPath st) (elements st) (history st)
          (historyIndex st) (zoom st) (isPanning st) (panOffset st)
          (lastPanPoint st) (selectedElement st) (editingText st)
          (textInput st) (textPosition st) (isDragging st) (isResizing st)
          (resizeHandle st) v (eraserPosition st) (hoverHandle st) (toasts st).
Definition setEraserPosition (v : EraserPosition) (st : State) : State :=
  mkState (isDrawing st) (currentPath st) (elements st) (history st)
          (historyIndex st) (zoom st) (isPanning st) (panOffset st)
          (lastPanPoint st) (selectedElement st) (editingText st)
          (textInput st) (textPosition st) (isDragging st) (isResizing st)
          (resizeHandle st) (dragStart st) v (hoverHandle st) (toasts st).
Definition setHoverHandle (v : option Handle.t) (st : State) : State :=
  mkState (isDrawing st) (currentPath st) (elements st) (history st)
          (historyIndex st) (zoom st) (isPanning st) (panOffset st)
          (lastPanPoint st) (selectedElement st) (editingText st)
          (textInput st) (textPosition st) (isDragging st) (isResizing st)
          (resizeHandle st) (dragStart st) (eraserPosition st) v (toasts st).
Definition setToasts (v : list string) (st : State) : State :=
  mkState (isDrawing st) (currentPath st) (elements st) (history st)
          (historyIndex st) (zoom st) (isPanning st) (panOffset st)
          (lastPanPoint st) (selectedElement st) (editingText st)
          (textInput st) (textPosition st) (isDragging st) (isResizing st)
          (resizeHandle st) (dragStart st) (eraserPosition st)
          (hoverHandle st) v.

Definition toast (msg : string) (st : State) : State :=
  setToasts (toasts st ++ [msg]) st.

(** ** History (lines 143-166)

    [cl] is the state captured by the closure of the handler that calls
    [addToHistory]; [st] is the state accumulated by the setters that ran
    before it. *)
Definition addToHistory (cl : State) (newElements : list CanvasElement)
    (st : State) : State :=
  let newHistory := firstn (historyIndex cl + 1) (history cl) ++ [newElements] in
  setHistoryIndex (List.length newHistory - 1) (setHistory newHistory st).

(** [history[i]] is [undefined] outside the array, and spreading [undefined]
    throws: the setters after it do not run, the one before it has. *)
Definition undo (st : State) : State :=
  if (0 <? historyIndex st)%nat then
    let st1 := setHistoryIndex (historyIndex st - 1) st in
    match nth_error (history st) (historyIndex st - 1) with
    | Some snapshot =>
        toast "Undone!" (setSelectedElement None (setElements snapshot st1))
    | None => st1
    end
  else st.

Definition redo (st : State) : State :=
  if (Z.of_nat (historyIndex st) <? Z.of_nat (List.length (history st)) - 1)%Z then
    let st1 := setHistoryIndex (historyIndex st + 1) st in
    match nth_error (history st) (historyIndex st + 1) with
    | Some snapshot =>
        toast "Redone!" (setSelectedElement None (setElements snapshot st1))
    | None => st1
    end
  else st.

(** ** Bounds and hit-testing (lines 241-325) *)

Definition lineCount (txt : JsString) : Q :=
  inject_Z (Z.of_nat (List.length (splitLines txt))).

Definition getElementBounds (element : CanvasElement) : Bounds :=
  match el_data element with
  | TextData txt _ size =>
      let lines := splitLines txt in
      match measureText with
      | Some measure =>
          let maxWidth := maxList (map (measure (size * 8)) lines) in
          let height := lineCount txt * size * 10 in
          mkBounds (el_x element) (el_y element) maxWidth height
      | None =>
          let maxLineLength :=
            maxList (map (fun line => inject_Z (Z.of_nat (List.length line)))
                         lines) in
          mkBounds (el_x element) (el_y element)
                   (maxLineLength * size * 6) (lineCount txt * size * 10)
      end
  | PathData p0 ps _ _ _ =>
      let xs := map px ps in
      let ys := map py ps in
      mkBounds (minOf (px p0) xs) (minOf (py p0) ys)
               (maxOf (px p0) xs - minOf (px p0) xs)
               (maxOf (py p0) ys - minOf (py p0) ys)
  end.

Definition getMousePos (canvas : option CanvasNode) (st : State)
    (ev : MouseEvent) : Point :=
  match canvas with
  | None => mkPoint 0 0
  | Some c =>
      mkPoint ((clientX ev - left (rect c) - px (panOffset st)) / zoom st)
              ((clientY ev - top (rect c) - py (panOffset st)) / zoom st)
  end.

(** The point-in-box test of [getElementAtPosition]. *)
Definition inBounds (pos : Point) (b : Bounds) : bool :=
  geq (px pos) (bx b) && leq (px pos) (bx b + bwidth b) &&
  geq (py pos) (by_ b) && leq (py pos) (by_ b + bheight b).

(** The loop [for (i = length - 1; i >= 0; i--)]: [scanDown els pos k]
    examines indices [k-1], [k-2], ..., [0]. *)
Fixpoint scanDown (els : list CanvasElement) (pos : Point) (k : nat)
    : option CanvasElement :=
  match k with
  | O => None
  | S i =>
      match nth_error els i with
      | Some element =>
          if inBounds pos (getElementBounds element) then Some element
          else scanDown els pos i
      | None => scanDown els pos i
      end
  end.

Definition getElementAtPosition (els : list CanvasElement) (pos : Point)
    : option CanvasElement :=
  scanDown els pos (List.length els).

(** The [handles] table: centre of each handle, in table order. *)
Definition handleTable (b : Bounds) : list (Q * Q * Handle.t) :=
  [ (bx b - 5, by_ b - 5, Handle.nw);
    (bx b + bwidth b + 5, by_ b - 5, Handle.ne);
    (bx b - 5, by_ b + bheight b + 5, Handle.sw);
    (bx b + bwidth b + 5, by_ b + bheight b + 5, Handle.se);
    (bx b + bwidth b / 2, by_ b - 5, Handle.n);
    (bx b + bwidth b / 2, by_ b + bheight b + 5, Handle.s);
    (bx b - 5, by_ b + bheight b / 2, Handle.w);
    (bx b + bwidth b + 5, by_ b + bheight b / 2, Handle.e) ].

Definition getResizeHandle (st : State) (pos : Point)
    (element : CanvasElement) : option Handle.t :=
  let bounds := getElementBounds element in
  let handleSize := 8 / zoom st in
  let tolerance := handleSize in
  option_map snd
    (find (fun h => ltq (Qabs (px pos - fst (fst h))) tolerance &&
                    ltq (Qabs (py pos - snd (fst h))) tolerance)
          (handleTable bounds)).

(** The condition under which [redrawCanvas] draws the selection border and
    the eight handle squares for an element (line 206). *)
Definition drawsSelection (st : State) (element : CanvasElement) : bool :=
  flag (el_selected element) &&
  match selectedElement st with
  | Some sel => String.eqb (el_id element) sel
  | None => false
  end.

(** ** Pointer handlers (lines 327-566) *)

Record Props := mkProps {
  activeTool : Tool;
  drawingSettings : DrawingSettings
}.

(** [setElements(prev => f(prev))]. *)
Definition updateElements
    (f : list CanvasElement -> list CanvasElement) (st : State) : State :=
  setElements (f (elements st)) st.

(** [selectedElement === id]. *)
Definition isSelectedId (st : State) (id : string) : bool :=
  match selectedElement st with
  | Some sel => String.eqb sel id
  | None => false
  end.

Definition handleMouseDown (props : Props) (canvas : option CanvasNode)
    (now : N) (ev : MouseEvent) (st : State) : State :=
  let pos := getMousePos canvas st ev in
  if (button ev =? 1)%Z || ctrlKey ev || Tool_eqb (activeTool props) PanTool
  then setLastPanPoint (mkPoint (clientX ev) (clientY ev)) (setIsPanning true st)
  else
    match activeTool props with
    | SelectTool =>
        match getElementAtPosition (elements st) pos with
        | Some element =>
            if isSelectedId st (el_id element) then
              match getResizeHandle st pos element with
              | Some handle =>
                  setDragStart pos
                    (setResizeHandle (Some handle) (setIsResizing true st))
              | None =>
                  match el_data element with
                  | TextData txt _ _ =>
                      updateElements
                        (map (fun el =>
                                with_editing (String.eqb (el_id el) (el_id element))
                                             (with_selected false el)))
                        (setTextPosition (mkPoint (el_x element) (el_y element))
                           (setTextInput txt
                              (setEditingText (Some (el_id element)) st)))
                  | PathData _ _ _ _ _ =>
                      setDragStart pos (setIsDragging true st)
                  end
              end
            else
              setDragStart pos
                (setIsDragging true
                   (updateElements
                      (map (fun el =>
                              with_selected (String.eqb (el_id el) (el_id element)) el))
                      (setSelectedElement (Some (el_id element)) st)))
        | None =>
            updateElements (map (with_selected false))
                           (setSelectedElement None st)
        end
    | PencilTool => setCurrentPath [pos] (setIsDrawing true st)
    | EraserTool =>
        match getElementAtPosition (elements st) pos with
        | Some element =>
            let newElements :=
              filter (fun el => negb (String.eqb (el_id el) (el_id element)))
                     (elements st) in
            toast "Element erased!"
                  (addToHistory st newElements (setElements newElements st))
        | None => st
        end
    | TextTool =>
        let textId := ("text-" ++ showN now)%string in
        setTextInput []
          (setTextPosition pos
             (setEditingText (Some textId)
                (setTextInput [] (setEditingText None st))))
    | PanTool => st
    end.

(** The [switch (resizeHandle)] of [handleMouseMove]: the box recomputed from
    the grabbed handle and the pointer delta. *)
Definition resizeBounds (handle : Handle.t) (bounds : Bounds)
    (deltaX deltaY : Q) : Bounds :=
  match handle with
  | Handle.se =>
      mkBounds (bx bounds) (by_ bounds)
               (Qmax 20 (bwidth bounds + deltaX))
               (Qmax 20 (bheight bounds + deltaY))
  | Handle.sw =>
      mkBounds (bx bounds + deltaX) (by_ bounds)
               (Qmax 20 (bwidth bounds - deltaX))
               (Qmax 20 (bheight bounds + deltaY))
  | Handle.ne =>
      mkBounds (bx bounds) (by_ bounds + deltaY)
               (Qmax 20 (bwidth bounds + deltaX))
               (Qmax 20 (bheight bounds - deltaY))
  | Handle.nw =>
      mkBounds (bx bounds + deltaX) (by_ bounds + deltaY)
               (Qmax 20 (bwidth bounds - deltaX))
               (Qmax 20 (bheight bounds - deltaY))
  | Handle.n | Handle.s | Handle.w | Handle.e => bounds
  end.

(** What the resize updater returns for the selected element. *)
Definition resizeElement (handle : Handle.t) (deltaX deltaY : Q)
    (el : CanvasElement) : CanvasElement :=
  let bounds := getElementBounds el in
  let newBounds := resizeBounds handle bounds deltaX deltaY in
  match el_data el with
  | TextData txt color _ =>
      let newSize := Qmax 1 (bheight newBounds / (lineCount txt * 10)) in
      with_data (TextData txt color newSize)
                (with_xy (bx newBounds) (by_ newBounds) el)
  | PathData _ _ _ _ _ => with_xy (bx newBounds) (by_ newBounds) el
  end.

(** What the drag updater returns for the selected element. *)
Definition dragElement (deltaX deltaY : Q) (el : CanvasElement)
    : CanvasElement :=
  match el_data el with
  | PathData p0 ps color size pressure =>
      let move := fun point => mkPoint (px point + deltaX) (py point + deltaY) in
      with_data (PathData (move p0) (map move ps) color size pressure) el
  | TextData _ _ _ => with_xy (el_x el + deltaX) (el_y el + deltaY) el
  end.

Definition handleMouseMove (props : Props) (canvas : option CanvasNode)
    (ev : MouseEvent) (st : State) : State :=
  let pos := getMousePos canvas st ev in
  let st1 :=
    if Tool_eqb (activeTool props) EraserTool then
      match canvas with
      | Some c =>
          setEraserPosition
            (mkEraser (clientX ev - left (rect c)) (clientY ev - top (rect c)) true)
            st
      | None => st
      end
    else
      setEraserPosition
        (mkEraser (ex (eraserPosition st)) (ey (eraserPosition st)) false) st in
  let st2 :=
    if Tool_eqb (activeTool props) SelectTool && truthyOpt (selectedElement st)
       && negb (isDragging st) && negb (isResizing st)
    then
      match find (fun el => isSelectedId st (el_id el)) (elements st) with
      | Some element => setHoverHandle (getResizeHandle st pos element) st1
      | None => st1
      end
    else st1 in
  if isPanning st then
    let deltaX := clientX ev - px (lastPanPoint st) in
    let deltaY := clientY ev - py (lastPanPoint st) in
    setLastPanPoint (mkPoint (clientX ev) (clientY ev))
      (setPanOffset (mkPoint (px (panOffset st2) + deltaX)
                             (py (panOffset st2) + deltaY)) st2)
  else
    let drawing := isDrawing st && Tool_eqb (activeTool props) PencilTool in
    let st3 :=
      if drawing then setCurrentPath (currentPath st ++ [pos]) st2 else st2 in
    if drawing && negb (match canvas with Some c => has2d c | None => false end)
    then st3
    else
      let deltaX := px pos - px (dragStart st) in
      let deltaY := py pos - py (dragStart st) in
      let st4 :=
        if isDragging st && truthyOpt (selectedElement st)
           && Tool_eqb (activeTool props) SelectTool
        then
          setDragStart pos
            (updateElements
               (map (fun el => if isSelectedId st (el_id el)
                               then dragElement deltaX deltaY el else el))
               st3)
        else st3 in
      match resizeHandle st with
      | Some handle =>
          if isResizing st && truthyOpt (selectedElement st) then
            setDragStart pos
              (updateElements
                 (map (fun el => if isSelectedId st (el_id el)
                                 then resizeElement handle deltaX deltaY el
                                 else el))
                 st4)
          else st4
      | None => st4
      end.

Definition handleMouseUp (props : Props) (now : N) (st : State) : State :=
  if isPanning st then setIsPanning false st
  else
    let st1 :=
      if isDragging st || isResizing st then
        addToHistory st (elements st)
          (setResizeHandle None (setIsResizing false (setIsDragging false st)))
      else st in
    if isDrawing st && Tool_eqb (activeTool props) PencilTool then
      match currentPath st with
      | p0 :: ps =>
          let newElement :=
            mkElement ("path-" ++ showN now)%string
                      (PathData p0 ps (ds_color (drawingSettings props))
                                (ds_size (drawingSettings props))
                                (ds_pressure (drawingSettings props)))
                      0 0 None None None None in
          let newElements := elements st ++ [newElement] in
          setIsDrawing false
            (setCurrentPath []
               (addToHistory st newElements (setElements newElements st1)))
      | [] => st1
      end
    else st1.

(** ** Text overlay (lines 86-98 and 568-627) *)

Definition handleTextInputChange (value : JsString) (st : State) : State :=
  setTextInput value st.

(** [elements.findIndex(el => el.id === id)]; [None] stands for [-1]. *)
Fixpoint findIndex (id : string) (els : list CanvasElement) : option nat :=
  match els with
  | [] => None
  | el :: rest =>
      if String.eqb (el_id el) id then Some O
      else option_map S (findIndex id rest)
  end.

(** [copy[i] = f(copy[i])] on a fresh copy of the array, [i] within it. *)
Fixpoint assignAt (i : nat) (f : CanvasElement -> CanvasElement)
    (els : list CanvasElement) : list CanvasElement :=
  match els, i with
  | [], _ => []
  | el :: rest, O => f el :: rest
  | el :: rest, S j => el :: assignAt j f rest
  end.

Definition closeOverlay (st : State) : State :=
  setTextInput [] (setEditingText None st).

Definition handleTextSubmit (props : Props) (st : State) : State :=
  match editingText st with
  | Some editing =>
      if truthyText (trim (textInput st)) && truthy editing then
        let data := TextData (textInput st) (ds_color (drawingSettings props))
                             (ds_size (drawingSettings props)) in
        let st1 :=
          match findIndex editing (elements st) with
          | Some existingElementIndex =>
              let newElements :=
                assignAt existingElementIndex
                         (fun el => with_editing false (with_data data el))
                         (elements st) in
              addToHistory st newElements (setElements newElements st)
          | None =>
              let newElement :=
                mkElement editing data (px (textPosition st))
                          (py (textPosition st)) None None None (Some false) in
              let newElements := elements st ++ [newElement] in
              addToHistory st newElements (setElements newElements st)
          end in
        toast "Text saved!" (closeOverlay st1)
      else closeOverlay st
  | None => closeOverlay st
  end.

Definition handleTextAreaBlur (props : Props) (st : State) : State :=
  if truthyText (trim (textInput st)) then handleTextSubmit props st
  else closeOverlay st.

Definition handleKeyDown (props : Props) (ev : KeyboardEvent) (st : State)
    : State :=
  if String.eqb (key ev) "Enter" && shiftKey ev then st
  else if String.eqb (key ev) "Enter" then handleTextSubmit props st
  else if String.eqb (key ev) "Escape" then closeOverlay st
  else st.

(** ** Viewport (lines 129-140 and 629-648) *)

Definition handleZoom (canvas : option CanvasNode) (delta : Q)
    (zoomCenter : option Point) (st : State) : State :=
  let newZoom := Qmax (1 # 10) (Qmin 5 (zoom st + delta)) in
  match canvas, zoomCenter with
  | Some c, Some center =>
      let mouseX := (px center - left (rect c) - px (panOffset st)) / zoom st in
      let mouseY := (py center - top (rect c) - py (panOffset st)) / zoom st in
      let newPanX := px center - left (rect c) - mouseX * newZoom in
      let newPanY := py center - top (rect c) - mouseY * newZoom in
      setPanOffset (mkPoint newPanX newPanY) (setZoom newZoom st)
  | _, _ => setZoom newZoom st
  end.

Definition handleWheel (canvas : option CanvasNode) (ev : MouseEvent)
    (deltaY : Q) (st : State) : State :=
  if ctrlKey ev then
    handleZoom canvas (- deltaY * (1 # 1000))
               (Some (mkPoint (clientX ev) (clientY ev))) st
  else st.

(** ** Clearing (lines 650-663)

    [clearCanvas] is reached through [window.clearCanvas], which an effect
    re-registers only when [elements] changes; [cl] is the render whose
    closure is installed (its [history] and [historyIndex] are the ones
    read), [st] the current state. *)

Definition clearCanvas (cl st : State) : State :=
  let newElements : list CanvasElement := [] in
  toast "Canvas cleared!"
        (setSelectedElement None
           (addToHistory cl newElements (setElements newElements st))).

(** ** Events and reachable states

    The handlers bound in the JSX and the wheel listener are those of the
    current render.  [ClearCanvas] is [window.clearCanvas] called while the
    installed closure is that of the current render; the call through the
    closure of an earlier render [cl] is [clearCanvas cl st], which has its
    own rule in [reachable]. *)

Inductive Event :=
| MouseDown (props : Props) (canvas : option CanvasNode) (now : N)
            (ev : MouseEvent)
| MouseMove (props : Props) (canvas : option CanvasNode) (ev : MouseEvent)
| MouseUp (props : Props) (now : N)
| TextInputChange (value : JsString)
| TextAreaBlur (props : Props)
| KeyDown (props : Props) (ev : KeyboardEvent)
| Wheel (canvas : option CanvasNode) (ev : MouseEvent) (deltaY : Q)
| ZoomButton (canvas : option CanvasNode) (delta : Q) (center : Point)
| UndoButton
| RedoButton
| ClearCanvas.

Definition step (evt : Event) (st : State) : State :=
  match evt with
  | MouseDown props canvas now ev => handleMouseDown props canvas now ev st
  | MouseMove props canvas ev => handleMouseMove props canvas ev st
  | MouseUp props now => handleMouseUp props now st
  | TextInputChange value => handleTextInputChange value st
  | TextAreaBlur props => handleTextAreaBlur props st
  | KeyDown props ev => handleKeyDown props ev st
  | Wheel canvas ev deltaY => handleWheel canvas ev deltaY st
  | ZoomButton canvas delta center => handleZoom canvas delta (Some center) st
  | UndoButton => undo st
  | RedoButton => redo st
  | ClearCanvas => clearCanvas st st
  end.

(** The state after a sequence of events, oldest first. *)
Definition run (evts : list Event) (st : State) : State :=
  fold_left (fun acc evt => step evt acc) evts st.

(** States the component can be in.  The last rule is [window.clearCanvas]
    called while the installed closure is that of an earlier render. *)
Inductive reachable : State -> Prop :=
| reach_init : reachable initialState
| reach_step : forall evt st, reachable st -> reachable (step evt st)
| reach_clear_stale : forall cl st,
    reachable cl -> reachable st -> reachable (clearCanvas cl st).

(** Histories built from the initial one by [addToHistory] calls alone. *)
Inductive commitsOnly : list (list CanvasElement) -> nat -> Prop :=
| commits_init : commitsOnly [[]] 0
| commits_push : forall cl newElements st,
    commitsOnly (history cl) (historyIndex cl) ->
    commitsOnly (history (addToHistory cl newElements st))
                (historyIndex (addToHistory cl newElements st)).

(** The specification's clamp, written from its words. *)
Definition clamp_spec (v lo hi : Q) : Q :=
  if Qle_bool v lo then lo else if Qle_bool hi v then hi else v.

(** World-to-screen transform of the viewport, relative to the canvas:
    [screen = world * zoom + panOffset]. *)
Definition worldToScreen (st : State) (world : Point) : Point :=
  mkPoint (px world * zoom st + px (panOffset st))
          (py world * zoom st + py (panOffset st)).

(** Screen-to-world transform for a point given in client coordinates, as
    [getMousePos] and [handleZoom] compute it. *)
Definition clientToWorld (r : DOMRect) (st : State) (client : Point) : Point :=
  mkPoint ((px client - left r - px (panOffset st)) / zoom st)
          ((py client - top r - py (panOffset st)) / zoom st).

(** Client coordinates of a world point. *)
Definition worldToClient (r : DOMRect) (st : State) (world : Point) : Point :=
  mkPoint (px (worldToScreen st world) + left r)
          (py (worldToScreen st world) + top r).

(** The hit test applied to one element. *)
Definition hits (pos : Point) (element : CanvasElement) : bool :=
  inBounds pos (getElementBounds element).

(** The two state invariants of the data model. *)
Definition validIndex (st : State) : Prop :=
  (historyIndex st < List.length (history st))%nat.

Definition validZoom (st : State) : Prop :=
  (1 # 10) <= zoom st /\ zoom st <= 5.

(** ** What the rendered output reads from the state *)

(** Whether [redrawCanvas] draws the body of an element (lines 184-203):
    a path always, a text unless its [editing] flag is set. *)
Definition drawsElement (element : CanvasElement) : bool :=
  match el_data element with
  | PathData _ _ _ _ _ => true
  | TextData _ _ _ => negb (flag (el_editing element))
  end.

(** The [disabled] attributes of the undo and redo buttons (lines 801 and
    811). *)
Definition undoDisabled (st : State) : bool :=
  (Z.of_nat (historyIndex st) <=? 0)%Z.

Definition redoDisabled (st : State) : bool :=
  (Z.of_nat (List.length (history st)) - 1 <=? Z.of_nat (historyIndex st))%Z.

(** The overlay is mounted when [editingText] is truthy (line 730); its
    [left] and [top] style are computed at lines 734-735. *)
Definition overlayOpen (st : State) : bool := truthyOpt (editingText st).

Definition overlayPosition (st : State) : Point :=
  mkPoint (Qmax 10 (px (textPosition st) * zoom st + px (panOffset st)))
          (Qmax 10 (py (textPosition st) * zoom st + py (panOffset st))).

(** [getCursorStyle] (lines 665-688). *)
Definition getCursorStyle (props : Props) (st : State) : string :=
  match hoverHandle st with
  | Some Handle.nw | Some Handle.se => "nwse-resize"
  | Some Handle.ne | Some Handle.sw => "nesw-resize"
  | Some Handle.n | Some Handle.s => "ns-resize"
  | Some Handle.e | Some Handle.w => "ew-resize"
  | None =>
      match activeTool props with
      | PencilTool => "crosshair"
      | EraserTool => "crosshair"
      | TextTool => "text"
      | PanTool => "grab"
      | SelectTool => if isDragging st then "move" else "default"
      end
  end.

(** [n] presses of the undo, respectively redo, button. *)
Definition undoTimes (k : nat) (st : State) : State := Nat.iter k undo st.
Definition redoTimes (k : nat) (st : State) : State := Nat.iter k redo st.

(** The pointer samples of a gesture, as world positions under a fixed
    viewport. *)
Definition worldPositions (canvas : option CanvasNode) (st : State)
    (evs : list MouseEvent) : list Point :=
  map (getMousePos canvas st) evs.

(** A stroke is in progress with at least one point, and a resize in
    progress has its handle. *)
Definition gestureConsistent (st : State) : Prop :=
  (isDrawing st = true -> currentPath st <> [])
  /\ (isResizing st = true -> resizeHandle st <> None).

(** The events of one pencil gesture: a press, the pointer moves, the
    release. *)
Definition strokeGesture (props : Props) (canvas : option CanvasNode)
    (pressedAt releasedAt : N) (press : MouseEvent) (moves : list MouseEvent)
    : list Event :=
  MouseDown props canvas pressedAt press
  :: map (MouseMove props canvas) moves ++ [MouseUp props releasedAt].

(** The events of one drag with the select tool: a press, the pointer
    moves, the release. *)
Definition dragGesture (props : Props) (canvas : option CanvasNode)
    (now : N) (press : MouseEvent) (moves : list MouseEvent) : list Event :=
  MouseDown props canvas now press
  :: map (MouseMove props canvas) moves ++ [MouseUp props now].

(** [el'] is [el] moved by ([dx], [dy]): same id, kind and flags, and its
    box is the box of [el] translated, with the same size. *)
Definition movedBy (dx dy : Q) (el el' : CanvasElement) : Prop :=
  el_id el' = el_id el
  /\ isText el' = isText el
  /\ el_selected el' = el_selected el
  /\ el_editing el' = el_editing el
  /\ bx (getElementBounds el') == bx (getElementBounds el) + dx
  /\ by_ (getElementBounds el') == by_ (getElementBounds el) + dy
  /\ bwidth (getElementBounds el') == bwidth (getElementBounds el)
  /\ bheight (getElementBounds el') == bheight (getElementBounds el).

(** Every id the state mentions is a non-empty string: the ids of the
    store, of every snapshot, of the overlay and of the selection. *)
Definition idOk (el : CanvasElement) : Prop := truthy (el_id el) = true.

Definition idsOk (st : State) : Prop :=
  Forall idOk (elements st)
  /\ Forall (Forall idOk) (history st)
  /\ (forall id, editingText st = Some id -> truthy id = true)
  /\ (forall id, selectedElement st = Some id -> truthy id = true).

End Component.

(** * Concrete scenarios

    The element store is exercised on a canvas at the client origin, with
    [unit] for the pressure setting and no text-measuring context. *)

Definition demoCanvas : option CanvasNode := Some (mkCanvas (mkRect 0 0) true).

Definition demoSettings : DrawingSettings := mkSettings "#000000" 4 tt.

Definition at_ (x y : Q) : MouseEvent := mkMouse x y 0%Z false.

(** A pencil stroke through (0,0), (5,5), (10,0), before the release. *)
Definition strokeInProgress : list (@Event unit) :=
  let props := mkProps PencilTool demoSettings in
  [ MouseDown props demoCanvas 1%N (at_ 0 0);
    MouseMove props demoCanvas (at_ 5 5);
    MouseMove props demoCanvas (at_ 10 0) ].

Definition stroke (now : N) : list (@Event unit) :=
  strokeInProgress ++ [MouseUp (mkProps PencilTool demoSettings) now].

(** Press on the stroke with the select tool and release: the snapshot
    pushed at the release holds the element with [selected = true]. *)
Definition selectAndRelease : list (@Event unit) :=
  let props := mkProps SelectTool demoSettings in
  [ MouseDown props demoCanvas 3%N (at_ 5 2); MouseUp props 4%N ].

(** The text tool pressed at (3,4), then [typed] entered in the overlay. *)
Definition typing (typed : JsString) : list (@Event unit) :=
  [ MouseDown (mkProps TextTool demoSettings) demoCanvas 7%N (at_ 3 4);
    TextInputChange typed ].

Definition afterEvents (evts : list (@Event unit)) : @State unit :=
  run None evts initialState.

(** A three-line text whose fallback box is (0,0,50,50): the longest line
    has 5 characters and the size is 5/3, so the width is 5 * 5/3 * 6 and the
    height 3 * 5/3 * 10. *)
Definition boxText : @CanvasElement unit :=
  mkElement "text-1"
            (TextData (js "aaaaa" ++ newline :: js "b" ++ newline :: js "c")
                      "#000000" (5 # 3))
            0 0 None None (Some true) (Some false).

(** [boxText] selected and being resized by [handle], the last pointer
    sample at (55,25). *)
Definition resizingWith (handle : Handle.t) : @State unit :=
  setDragStart (mkPoint 55 25)
    (setResizeHandle (Some handle)
       (setIsResizing true
          (setSelectedElement (Some "text-1"%string)
             (setHistory [[]; [boxText]]
                (setHistoryIndex 1 (setElements [boxText] initialState)))))).

(** The boxes of the store after the pointer moved to (65,35), a delta of
    (+10,+10), during that resize. *)
Definition boxesAfterResize (handle : Handle.t) : list Bounds :=
  map (getElementBounds None)
      (elements (handleMouseMove None (mkProps SelectTool demoSettings)
                                 demoCanvas (at_ 65 35) (resizingWith handle))).

(** Equality of two boxes as numbers. *)
Definition sameBounds (a b : Bounds) : bool :=
  Qeq_bool (bx a) (bx b) && Qeq_bool (by_ a) (by_ b)
  && Qeq_bool (bwidth a) (bwidth b) && Qeq_bool (bheight a) (bheight b).

(** Further scenarios. *)

(** Two strokes drawn one after the other: three snapshots, index 2. *)
Definition twoStrokes : @State unit := afterEvents (stroke 2 ++ stroke 9).

(** One stroke, then a press on it with the select tool: selected and being
    dragged, anchored at (5,2). *)
Definition draggingStroke : @State unit :=
  afterEvents
    (stroke 2
     ++ [MouseDown (mkProps SelectTool demoSettings) demoCanvas 3%N (at_ 5 2)]).

(** The stroke of [strokeInProgress] with the middle button pressed before
    the release: the press starts a pan and leaves the stroke in progress. *)
Definition strokeThenPanPress : @State unit :=
  afterEvents
    (strokeInProgress
     ++ [MouseDown (mkProps PencilTool demoSettings) demoCanvas 2%N
                   (mkMouse 10 0 1%Z false)]).

(** [draggingStroke] after the pointer moved to (15,12): the move assigns
    [elements], so [window.clearCanvas] is re-registered with the closure of
    this render.  [dragReleased] is the state after the release that
    follows: the release pushes the moved store without assigning
    [elements], so the installed closure is still that of [dragMoved]. *)
Definition dragMoved : @State unit :=
  step None (MouseMove (mkProps SelectTool demoSettings) demoCanvas
                       (at_ 15 12))
       draggingStroke.

Definition dragReleased : @State unit :=
  step None (MouseUp (mkProps SelectTool demoSettings) 4%N) dragMoved.

(** A press with the pan tool at (10,10). *)
Definition panningFrom : @State unit :=
  afterEvents
    [MouseDown (mkProps PanTool demoSettings) demoCanvas 1%N (at_ 10 10)].

(** [boxText] alone in the store and selected, at zoom 1 and at zoom 2. *)
Definition textSelected : @State unit :=
  setSelectedElement (Some "text-1"%string)
    (setHistory [[boxText]] (setElements [boxText] initialState)).

Definition textSelectedZoomedIn : @State unit :=
  handleZoom demoCanvas 1 None textSelected.

Definition offsetCanvas : CanvasNode := mkCanvas (mkRect 10 20) true.

(** * Properties *)

Section Properties.

Context {Pressure : Type}.
Variable measureText : option (Q -> JsString -> Q).

Local Abbreviation State := (@State Pressure) (only parsing).
Local Abbreviation CanvasElement := (@CanvasElement Pressure) (only parsing).
Local Abbreviation Props := (@Props Pressure) (only parsing).
Local Abbreviation Event := (@Event Pressure) (only parsing).
Local Abbreviation commitsOnly := (@commitsOnly Pressure) (only parsing).
Local Abbreviation getElementBounds := (getElementBounds measureText) (only parsing).
Local Abbreviation scanDown := (scanDown measureText) (only parsing).
Local Abbreviation getElementAtPosition :=
  (getElementAtPosition measureText) (only parsing).
Local Abbreviation getResizeHandle := (getResizeHandle measureText) (only parsing).
Local Abbreviation hits := (hits measureText) (only parsing).
Local Abbreviation resizeElement := (resizeElement measureText) (only parsing).
Local Abbreviation handleMouseDown := (handleMouseDown measureText) (only parsing).
Local Abbreviation handleMouseMove := (handleMouseMove measureText) (only parsing).
Local Abbreviation step := (step measureText) (only parsing).
Local Abbreviation run := (run measureText) (only parsing).
Local Abbreviation reachable := (reachable measureText) (only parsing).
Local Abbreviation movedBy := (movedBy measureText) (only parsing).


(** ** Proof automation *)

Ltac break_branch :=
  match goal with
  | |- context [if ?c then _ else _] => destruct c
  | |- context [match ?x with _ => _ end] => destruct x
  end.

(** ** History: shape of the log *)

Lemma addToHistory_history (cl : State) newElements (st : State) :
  history (addToHistory cl newElements st)
  = firstn (historyIndex cl + 1) (history cl) ++ [newElements].
Proof. reflexivity. Qed.

Lemma addToHistory_index (cl : State) newElements (st : State) :
  historyIndex (addToHistory cl newElements st)
  = (List.length (firstn (historyIndex cl + 1) (history cl)))%nat.
Proof.
  unfold addToHistory; simpl.
  rewrite length_app; simpl. lia.
Qed.

Lemma addToHistory_last (cl : State) newElements (st : State) :
  (historyIndex (addToHistory cl newElements st) + 1
   = List.length (history (addToHistory cl newElements st)))%nat.
Proof.
  rewrite addToHistory_index, addToHistory_history, length_app; simpl; lia.
Qed.

Lemma addToHistory_snapshot (cl : State) newElements (st : State) :
  nth_error (history (addToHistory cl newElements st))
            (historyIndex (addToHistory cl newElements st))
  = Some newElements.
Proof.
  rewrite addToHistory_index, addToHistory_history.
  rewrite nth_error_app2 by lia.
  rewrite Nat.sub_diag. reflexivity.
Qed.

Lemma commitsOnly_last h i :
  commitsOnly h i -> (i + 1 = List.length h)%nat.
Proof.
  intros H; destruct H as [|cl els st _].
  - reflexivity.
  - apply addToHistory_last.
Qed.

Lemma undo_at_start (st : State) :
  historyIndex st = 0%nat -> undo st = st.
Proof. intros H. unfold undo. rewrite H. reflexivity. Qed.

Lemma redo_guard (st : State) :
  (Z.of_nat (historyIndex st) <? Z.of_nat (List.length (history st)) - 1)%Z
  = (historyIndex st + 1 <? List.length (history st))%nat.
Proof.
  destruct (Nat.ltb_spec (historyIndex st + 1) (List.length (history st)));
    [apply Z.ltb_lt | apply Z.ltb_ge]; lia.
Qed.

Lemma redo_at_tail (st : State) :
  (List.length (history st) <= historyIndex st + 1)%nat -> redo st = st.
Proof.
  intros H. unfold redo. rewrite redo_guard.
  destruct (Nat.ltb_spec (historyIndex st + 1) (List.length (history st)));
    [lia | reflexivity].
Qed.

Lemma undo_effective (st : State) snapshot :
  (0 < historyIndex st)%nat ->
  nth_error (history st) (historyIndex st - 1) = Some snapshot ->
  undo st
  = toast "Undone!"
      (setSelectedElement None
         (setElements snapshot (setHistoryIndex (historyIndex st - 1) st))).
Proof.
  intros Hpos Hnth. unfold undo.
  destruct (Nat.ltb_spec 0 (historyIndex st)); [|lia].
  rewrite Hnth. reflexivity.
Qed.

Lemma redo_effective (st : State) snapshot :
  (historyIndex st + 1 < List.length (history st))%nat ->
  nth_error (history st) (historyIndex st + 1) = Some snapshot ->
  redo st
  = toast "Redone!"
      (setSelectedElement None
         (setElements snapshot (setHistoryIndex (historyIndex st + 1) st))).
Proof.
  intros Hlt Hnth. unfold redo. rewrite redo_guard.
  destruct (Nat.ltb_spec (historyIndex st + 1) (List.length (history st))); [|lia].
  rewrite Hnth. reflexivity.
Qed.

Lemma nth_error_in_range {A} (l : list A) i :
  (i < List.length l)%nat -> exists x, nth_error l i = Some x.
Proof.
  intros H. destruct (nth_error l i) eqn:E; [eauto|].
  apply nth_error_None in E. lia.
Qed.

(** [undo] followed by [redo] from a state whose store is the current
    snapshot and whose index is valid and not the first one. *)
Lemma undo_redo_step (st : State) :
  (0 < historyIndex st)%nat ->
  nth_error (history st) (historyIndex st) = Some (elements st) ->
  elements (redo (undo st)) = elements st
  /\ history (redo (undo st)) = history st
  /\ historyIndex (redo (undo st)) = historyIndex st.
Proof.
  intros Hpos Hcur.
  assert (Hlt : (historyIndex st < List.length (history st))%nat).
  { apply nth_error_Some. rewrite Hcur. discriminate. }
  destruct (@nth_error_in_range _ (history st) (historyIndex st - 1)) as [prev Hprev];
    [lia|].
  rewrite (undo_effective st Hpos Hprev).
  set (st' := toast _ _).
  assert (Hh : history st' = history st) by reflexivity.
  assert (Hi : historyIndex st' = (historyIndex st - 1)%nat) by reflexivity.
  assert (Hn : nth_error (history st') (historyIndex st' + 1) = Some (elements st)).
  { rewrite Hh, Hi. replace (historyIndex st - 1 + 1)%nat with (historyIndex st) by lia.
    exact Hcur. }
  rewrite (@redo_effective st' (elements st)); [|rewrite Hh, Hi; lia|exact Hn].
  simpl. repeat split. lia.
Qed.

(** ** Invariants of reachable states *)

Lemma newZoom_valid (z delta : Q) :
  (1 # 10) <= Qmax (1 # 10) (Qmin 5 (z + delta))
  /\ Qmax (1 # 10) (Qmin 5 (z + delta)) <= 5.
Proof.
  split.
  - apply Q.le_max_l.
  - apply Q.max_lub; [discriminate | apply Q.le_min_l].
Qed.

Lemma handleZoom_zoom canvas delta center (st : State) :
  zoom (handleZoom canvas delta center st)
  = Qmax (1 # 10) (Qmin 5 (zoom st + delta)).
Proof. unfold handleZoom. destruct canvas, center; reflexivity. Qed.

Lemma handleZoom_validZoom canvas delta center (st : State) :
  validZoom (handleZoom canvas delta center st).
Proof. unfold validZoom. rewrite handleZoom_zoom. apply newZoom_valid. Qed.

Ltac solve_validIndex :=
  unfold validIndex in *; simpl in *;
  rewrite ?length_app; simpl; try lia.

Lemma undo_validIndex (st : State) : validIndex st -> validIndex (undo st).
Proof.
  intros H. unfold undo.
  destruct (Nat.ltb_spec 0 (historyIndex st)); [|exact H].
  destruct (nth_error _ _); solve_validIndex.
Qed.

Lemma redo_validIndex (st : State) : validIndex st -> validIndex (redo st).
Proof.
  intros H. unfold redo. rewrite redo_guard.
  destruct (Nat.ltb_spec (historyIndex st + 1) (List.length (history st))); [|exact H].
  destruct (nth_error _ _); solve_validIndex.
Qed.

Lemma handleMouseDown_validIndex props canvas now ev (st : State) :
  validIndex st -> validIndex (handleMouseDown props canvas now ev st).
Proof.
  intros H. unfold handleMouseDown, updateElements.
  repeat break_branch; solve_validIndex.
Qed.

Lemma handleMouseMove_history props canvas ev (st : State) :
  history (handleMouseMove props canvas ev st) = history st
  /\ historyIndex (handleMouseMove props canvas ev st) = historyIndex st
  /\ zoom (handleMouseMove props canvas ev st) = zoom st.
Proof.
  unfold handleMouseMove, updateElements.
  repeat break_branch; simpl; auto.
Qed.

Lemma handleMouseUp_validIndex props now (st : State) :
  validIndex st -> validIndex (handleMouseUp props now st).
Proof.
  intros H. unfold handleMouseUp.
  repeat break_branch; solve_validIndex.
Qed.

Lemma handleTextSubmit_validIndex props (st : State) :
  validIndex st -> validIndex (handleTextSubmit props st).
Proof.
  intros H. unfold handleTextSubmit, closeOverlay.
  repeat break_branch; solve_validIndex.
Qed.

Lemma step_validIndex evt (st : State) :
  validIndex st -> validIndex (step evt st).
Proof.
  intros H. destruct evt; simpl.
  - now apply handleMouseDown_validIndex.
  - destruct (handleMouseMove_history props canvas ev st) as (Hh & Hi & _).
    unfold validIndex. rewrite Hh, Hi. exact H.
  - now apply handleMouseUp_validIndex.
  - exact H.
  - unfold handleTextAreaBlur. destruct (truthyText _).
    + now apply handleTextSubmit_validIndex.
    + exact H.
  - unfold handleKeyDown. repeat break_branch; auto.
    now apply handleTextSubmit_validIndex.
  - unfold handleWheel, handleZoom. repeat break_branch; exact H.
  - unfold handleZoom. repeat break_branch; exact H.
  - now apply undo_validIndex.
  - now apply redo_validIndex.
  - unfold clearCanvas. solve_validIndex.
Qed.

Lemma step_validZoom evt (st : State) :
  validZoom st -> validZoom (step evt st).
Proof.
  intros H. destruct evt; simpl.
  - unfold handleMouseDown, updateElements. repeat break_branch; exact H.
  - destruct (handleMouseMove_history props canvas ev st) as (_ & _ & Hz).
    unfold validZoom. rewrite Hz. exact H.
  - unfold handleMouseUp. repeat break_branch; exact H.
  - exact H.
  - unfold handleTextAreaBlur, handleTextSubmit, closeOverlay.
    repeat break_branch; exact H.
  - unfold handleKeyDown, handleTextSubmit, closeOverlay.
    repeat break_branch; exact H.
  - unfold handleWheel. destruct (ctrlKey ev); [apply handleZoom_validZoom | exact H].
  - apply handleZoom_validZoom.
  - unfold undo. repeat break_branch; exact H.
  - unfold redo. repeat break_branch; exact H.
  - exact H.
Qed.

Lemma reachable_valid (st : State) :
  reachable st -> validIndex st /\ validZoom st.
Proof.
  induction 1 as [| evt st _ [IHi IHz] | cl st _ _ _ [IHi IHz]].
  - split; [unfold validIndex; simpl; lia | split; discriminate].
  - split; [now apply step_validIndex | now apply step_validZoom].
  - split; [unfold clearCanvas; solve_validIndex | exact IHz].
Qed.

Lemma reachable_run (evts : list Event) (st : State) :
  reachable st -> reachable (run evts st).
Proof.
  revert st. induction evts as [|evt evts IH]; intros st H; simpl.
  - exact H.
  - apply IH. now apply reach_step.
Qed.

(** ** Undo and redo *)

(** C1. In a state whose history was built by [addToHistory] calls alone
    and whose element store is the snapshot at the current index, [undo]
    followed by [redo] gives back exactly the same element store (every
    field of every element), the same history and the same index. *)
Theorem undo_redo_roundtrip (st : State) :
  commitsOnly (history st) (historyIndex st) ->
  nth_error (history st) (historyIndex st) = Some (elements st) ->
  elements (redo (undo st)) = elements st
  /\ history (redo (undo st)) = history st
  /\ historyIndex (redo (undo st)) = historyIndex st.
Proof.
  intros Hc Hcur.
  pose proof (commitsOnly_last Hc) as Hlast.
  destruct (historyIndex st) as [|i] eqn:Hi.
  - rewrite (undo_at_start st Hi).
    rewrite redo_at_tail by lia.
    rewrite Hi. auto.
  - rewrite <- Hi in *. apply undo_redo_step; [lia | exact Hcur].
Qed.

(** C2. [addToHistory], called from a render whose index is valid (in
    particular after any number of undos), keeps the snapshots up to and
    including the current index, drops every snapshot after it, appends the
    new one and makes it the current one; a [redo] right after changes
    nothing. *)
Theorem commit_truncates_redo_branch (cl st : State)
    (newElements : list CanvasElement) :
  validIndex cl ->
  let st' := addToHistory cl newElements st in
  history st' = firstn (historyIndex cl + 1) (history cl) ++ [newElements]
  /\ List.length (history st') = (historyIndex cl + 2)%nat
  /\ historyIndex st' = (historyIndex cl + 1)%nat
  /\ (forall j, (j <= historyIndex cl)%nat ->
                nth_error (history st') j = nth_error (history cl) j)
  /\ nth_error (history st') (historyIndex st') = Some newElements
  /\ redo st' = st'.
Proof.
  intros Hv st'. unfold validIndex in Hv.
  assert (Hlen : List.length (firstn (historyIndex cl + 1) (history cl))
                 = (historyIndex cl + 1)%nat).
  { rewrite length_firstn. lia. }
  repeat split.
  - subst st'. rewrite addToHistory_history, length_app, Hlen. simpl. lia.
  - subst st'. rewrite addToHistory_index. exact Hlen.
  - intros j Hj. subst st'. rewrite addToHistory_history.
    rewrite nth_error_app1 by lia.
    rewrite nth_error_firstn.
    destruct (Nat.ltb_spec j (historyIndex cl + 1)); [reflexivity | lia].
  - apply addToHistory_snapshot.
  - apply redo_at_tail.
    pose proof (addToHistory_last cl newElements st). subst st'. lia.
Qed.

(** C3. [undo] at index 0 and [redo] at the last snapshot return the state
    unchanged (store, history, index and everything else), and in every
    reachable state the history index is a position of the history. *)
Theorem history_index_always_valid :
  (forall st : State, historyIndex st = 0%nat -> undo st = st)
  /\ (forall st : State,
        (historyIndex st + 1 = List.length (history st))%nat -> redo st = st)
  /\ (forall st : State,
        reachable st ->
        (0 <= historyIndex st < List.length (history st))%nat).
Proof.
  split; [|split].
  - exact undo_at_start.
  - intros st H. apply redo_at_tail. lia.
  - intros st H. destruct (reachable_valid H) as [Hv _].
    unfold validIndex in Hv. lia.
Qed.

(** ** Selection after undo and redo *)

Lemma no_selection_no_chrome (st : State) (el : CanvasElement) :
  selectedElement st = None -> drawsSelection st el = false.
Proof.
  intros H. unfold drawsSelection. rewrite H. apply andb_false_r.
Qed.

Lemma no_selection_no_drag props canvas ev (st : State) :
  selectedElement st = None ->
  elements (handleMouseMove props canvas ev st) = elements st.
Proof.
  intros H. unfold handleMouseMove, updateElements. rewrite H. simpl.
  rewrite !andb_false_r. simpl.
  repeat break_branch; reflexivity.
Qed.

Lemma undo_changes_index (st : State) :
  validIndex st ->
  historyIndex (undo st) <> historyIndex st ->
  selectedElement (undo st) = None.
Proof.
  intros Hv Hne. unfold undo in *.
  destruct (Nat.ltb_spec 0 (historyIndex st)); [|congruence].
  destruct (@nth_error_in_range _ (history st) (historyIndex st - 1)) as [snap Hs].
  { unfold validIndex in Hv. lia. }
  rewrite Hs. reflexivity.
Qed.

Lemma redo_changes_index (st : State) :
  historyIndex (redo st) <> historyIndex st ->
  selectedElement (redo st) = None.
Proof.
  intros Hne. unfold redo in *. rewrite redo_guard in *.
  destruct (Nat.ltb_spec (historyIndex st + 1) (List.length (history st)));
    [|congruence].
  destruct (@nth_error_in_range _ (history st) (historyIndex st + 1)) as [snap Hs];
    [lia|].
  rewrite Hs. reflexivity.
Qed.

(** C10. In a reachable state, an [undo] or [redo] that changes the history
    index leaves no selected element: [selectedElement] is [null], the
    renderer draws the selection border and handles for no element (whatever
    its [selected] flag says), and a pointer move changes no element by
    dragging or resizing. *)
Theorem undo_redo_clear_selection (st : State) :
  reachable st ->
  (historyIndex (undo st) <> historyIndex st ->
   selectedElement (undo st) = None
   /\ (forall el, drawsSelection (undo st) el = false)
   /\ (forall props canvas ev,
         elements (handleMouseMove props canvas ev (undo st))
         = elements (undo st)))
  /\ (historyIndex (redo st) <> historyIndex st ->
      selectedElement (redo st) = None
      /\ (forall el, drawsSelection (redo st) el = false)
      /\ (forall props canvas ev,
            elements (handleMouseMove props canvas ev (redo st))
            = elements (redo st))).
Proof.
  intros Hr. destruct (reachable_valid Hr) as [Hv _].
  split; intros Hne.
  - pose proof (undo_changes_index Hv Hne) as Hs.
    split; [exact Hs | split].
    + intros el. now apply no_selection_no_chrome.
    + intros. now apply no_selection_no_drag.
  - pose proof (redo_changes_index st Hne) as Hs.
    split; [exact Hs | split].
    + intros el. now apply no_selection_no_chrome.
    + intros. now apply no_selection_no_drag.
Qed.

(** ** Viewport *)

Lemma clamp_spec_max_min (v : Q) :
  Qmax (1 # 10) (Qmin 5 v) == clamp_spec v (1 # 10) 5.
Proof.
  unfold clamp_spec.
  destruct (Qle_bool v (1 # 10)) eqn:Hlo.
  - apply Qle_bool_iff in Hlo.
    apply Q.max_l. rewrite Q.min_r by lra. exact Hlo.
  - assert (Hlo' : (1 # 10) < v).
    { apply Qnot_le_lt. intros H. apply Qle_bool_iff in H. congruence. }
    destruct (Qle_bool 5 v) eqn:Hhi.
    + apply Qle_bool_iff in Hhi.
      rewrite Q.min_l by exact Hhi. apply Q.max_r. discriminate.
    + assert (Hhi' : v < 5).
      { apply Qnot_le_lt. intros H. apply Qle_bool_iff in H. congruence. }
      rewrite Q.min_r by lra. apply Q.max_r. lra.
Qed.

(** C9. Whatever the current zoom and the delta, the zoom after [handleZoom]
    lies in [0.1, 5] and equals clamp(zoom + delta, 0.1, 5); no call is
    rejected.  (It holds in particular when the current zoom is in range.) *)
Theorem zoom_always_clamped canvas (delta : Q) center (st : State) :
  (1 # 10) <= zoom (handleZoom canvas delta center st)
  /\ zoom (handleZoom canvas delta center st) <= 5
  /\ zoom (handleZoom canvas delta center st)
     == clamp_spec (zoom st + delta) (1 # 10) 5.
Proof.
  rewrite handleZoom_zoom.
  destruct (newZoom_valid (zoom st) delta) as [Hlo Hhi].
  repeat split; [exact Hlo | exact Hhi | apply clamp_spec_max_min].
Qed.

Lemma zoom_fixes_center (c : CanvasNode) (delta : Q) (center : Point)
    (st : State) :
  ~ zoom st == 0 ->
  let st' := handleZoom (Some c) delta (Some center) st in
  let world := clientToWorld (rect c) st center in
  px (worldToClient (rect c) st' world) == px center
  /\ py (worldToClient (rect c) st' world) == py center.
Proof.
  intros Hz. unfold handleZoom, worldToClient, worldToScreen, clientToWorld.
  simpl. split; field; exact Hz.
Qed.

Lemma clientToWorld_inverse (r : DOMRect) (center : Point) (st : State) :
  ~ zoom st == 0 ->
  px (worldToClient r st (clientToWorld r st center)) == px center
  /\ py (worldToClient r st (clientToWorld r st center)) == py center.
Proof.
  intros Hz. unfold worldToClient, worldToScreen, clientToWorld.
  simpl. split; field; exact Hz.
Qed.

(** C5. In a reachable state with the canvas mounted, the world point that
    is under the given centre before [handleZoom] is under the same client
    position after it; a call without a centre changes the zoom factor and
    nothing else, so the pan offset stays. *)
Theorem zoom_to_cursor (c : CanvasNode) (delta : Q) (center : Point)
    (st : State) :
  reachable st ->
  let world := clientToWorld (rect c) st center in
  let st' := handleZoom (Some c) delta (Some center) st in
  (px (worldToClient (rect c) st world) == px center
   /\ py (worldToClient (rect c) st world) == py center)
  /\ (px (worldToClient (rect c) st' world) == px center
      /\ py (worldToClient (rect c) st' world) == py center)
  /\ (forall canvas,
        handleZoom canvas delta None st
        = setZoom (Qmax (1 # 10) (Qmin 5 (zoom st + delta))) st
        /\ panOffset (handleZoom canvas delta None st) = panOffset st).
Proof.
  intros Hr world st'.
  destruct (reachable_valid Hr) as [_ [Hlo _]].
  assert (Hz : ~ zoom st == 0) by (intros E; lra).
  split; [|split].
  - now apply clientToWorld_inverse.
  - now apply zoom_fixes_center.
  - intros canvas. unfold handleZoom. destruct canvas; split; reflexivity.
Qed.

(** ** Hit-testing *)

Lemma inBounds_spec (pos : Point) (b : Bounds) :
  inBounds pos b = true <->
  bx b <= px pos /\ px pos <= bx b + bwidth b
  /\ by_ b <= py pos /\ py pos <= by_ b + bheight b.
Proof.
  unfold inBounds, geq, leq.
  rewrite !andb_true_iff, !Qle_bool_iff. tauto.
Qed.

Lemma scanDown_find (els : list CanvasElement) (pos : Point) (k : nat) :
  (k <= List.length els)%nat ->
  scanDown els pos k = find (hits pos) (rev (firstn k els)).
Proof.
  induction k as [|i IH]; intros Hk.
  - reflexivity.
  - destruct (@nth_error_in_range _ els i) as [x Hx]; [lia|].
    simpl scanDown. rewrite Hx.
    assert (Hsplit : firstn (S i) els = firstn i els ++ [x]).
    { clear IH. revert els Hk Hx. induction i as [|i IHi]; intros [|a l] Hk Hx;
        simpl in *; try discriminate; try lia.
      - congruence.
      - f_equal. apply IHi; [lia | exact Hx]. }
    rewrite Hsplit, rev_app_distr. simpl. unfold hits at 1.
    destruct (inBounds pos (getElementBounds x)); [reflexivity|].
    apply IH. lia.
Qed.

Lemma getElementAtPosition_find (els : list CanvasElement) (pos : Point) :
  getElementAtPosition els pos = find (hits pos) (rev els).
Proof.
  unfold getElementAtPosition. rewrite scanDown_find by lia.
  now rewrite firstn_all.
Qed.

Lemma find_rev_split {A} (p : A -> bool) (l : list A) (x : A) :
  find p (rev l) = Some x ->
  exists before after,
    l = before ++ x :: after /\ p x = true
    /\ forall y, In y after -> p y = false.
Proof.
  induction l as [|a l IH] using rev_ind; intros H.
  - discriminate.
  - rewrite rev_app_distr in H. simpl in H.
    destruct (p a) eqn:Hpa.
    + injection H as <-. exists l, []. repeat split; auto.
      intros y [].
    + destruct (IH H) as (before & after & -> & Hpx & Hafter).
      exists before, (after ++ [a]). repeat split; auto.
      * now rewrite <- app_assoc.
      * intros y Hy. apply in_app_or in Hy. destruct Hy as [Hy|[<-|[]]]; auto.
Qed.

Lemma find_rev_topmost {A} (p : A -> bool) (before after : list A) (x : A) :
  p x = true -> (forall y, In y after -> p y = false) ->
  find p (rev (before ++ x :: after)) = Some x.
Proof.
  intros Hx Hafter.
  rewrite rev_app_distr. simpl. rewrite <- app_assoc. simpl.
  induction (rev after) as [|a l IH] eqn:E in after, Hafter |- *.
  - simpl. now rewrite Hx.
  - assert (Hin : In a after).
    { apply in_rev. rewrite E. now left. }
    simpl. rewrite (Hafter a Hin).
    apply (IH (rev l)).
    + intros y Hy. apply Hafter. apply in_rev. rewrite E. right.
      now apply in_rev in Hy.
    + apply rev_involutive.
Qed.

Lemma inBounds_false_iff (pos : Point) (b : Bounds) :
  inBounds pos b = false <->
  ~ (bx b <= px pos /\ px pos <= bx b + bwidth b
     /\ by_ b <= py pos /\ py pos <= by_ b + bheight b).
Proof.
  rewrite <- inBounds_spec. destruct (inBounds pos b); split; intros H.
  - discriminate.
  - now contradiction H.
  - discriminate.
  - reflexivity.
Qed.


(** ** Pencil release *)

(** C8 (amended). In a drawing state (pencil active, stroke in progress)
    with at least one in-progress point and no pan in progress, releasing
    appends exactly one new
    path element, built from the in-progress points and the current drawing
    settings, after the unchanged prior elements; the history keeps its
    snapshots up to the current index and gains exactly one entry, the new
    store; the in-progress points are cleared. *)
Theorem pencil_release_appends_path (props : Props) (now : N) (st : State)
    (p0 : Point) (ps : list Point) :
  validIndex st ->
  isPanning st = false ->
  isDrawing st = true ->
  activeTool props = PencilTool ->
  currentPath st = p0 :: ps ->
  let st' := handleMouseUp props now st in
  let newElement :=
    mkElement ("path-" ++ showN now)%string
              (PathData p0 ps (ds_color (drawingSettings props))
                        (ds_size (drawingSettings props))
                        (ds_pressure (drawingSettings props)))
              0 0 None None None None in
  elements st' = elements st ++ [newElement]
  /\ points (el_data newElement) = currentPath st
  /\ history st'
     = firstn (historyIndex st + 1) (history st) ++ [elements st ++ [newElement]]
  /\ List.length (history st') = (historyIndex st + 2)%nat
  /\ historyIndex st' = (historyIndex st + 1)%nat
  /\ currentPath st' = []
  /\ isDrawing st' = false.
Proof.
  intros Hv Hpan Hdraw Htool Hpath st' newElement.
  assert (Hlen : List.length (firstn (historyIndex st + 1) (history st))
                 = (historyIndex st + 1)%nat).
  { rewrite length_firstn. unfold validIndex in Hv. lia. }
  subst st'. unfold handleMouseUp.
  rewrite Hpan, Hdraw, Htool, Hpath. simpl.
  fold newElement.
  split; [destruct (isDragging st || isResizing st); reflexivity|].
  split; [reflexivity|].
  split; [reflexivity|].
  split; [rewrite length_app, Hlen; simpl; lia|].
  split; [rewrite length_app, Hlen; simpl; lia|].
  split; reflexivity.
Qed.

(** ** Text overlay *)

Lemma findIndex_some (id : string) (els : list CanvasElement) (i : nat) :
  findIndex id els = Some i ->
  exists el, nth_error els i = Some el /\ el_id el = id.
Proof.
  revert i. induction els as [|a l IH]; intros i H; simpl in H.
  - discriminate.
  - destruct (String.eqb (el_id a) id) eqn:E.
    + injection H as <-. exists a. split; [reflexivity | now apply String.eqb_eq].
    + destruct (findIndex id l) as [j|]; [|discriminate].
      injection H as <-. simpl. now apply IH.
Qed.

Lemma assignAt_length i f (els : list CanvasElement) :
  List.length (assignAt i f els) = List.length els.
Proof.
  revert i. induction els as [|a l IH]; intros [|i]; simpl; auto.
Qed.

Lemma assignAt_same i f (els : list CanvasElement) el :
  nth_error els i = Some el ->
  nth_error (assignAt i f els) i = Some (f el).
Proof.
  revert i. induction els as [|a l IH]; intros [|i] H; simpl in *;
    try discriminate.
  - congruence.
  - now apply IH.
Qed.

Lemma assignAt_other i j f (els : list CanvasElement) :
  i <> j -> nth_error (assignAt i f els) j = nth_error els j.
Proof.
  revert i j. induction els as [|a l IH]; intros [|i] [|j] H; simpl;
    try reflexivity; try congruence.
  apply IH. congruence.
Qed.

Lemma trimEnd_keeps_content (c : N) (rest : JsString) :
  isWhiteSpace c = false -> trimEnd (c :: rest) <> [].
Proof.
  intros H. simpl. destruct (trimEnd rest); [rewrite H|]; discriminate.
Qed.

Lemma trimStart_blank (s : JsString) :
  trimStart s = [] <-> (forall c, In c s -> isWhiteSpace c = true).
Proof.
  induction s as [|c rest IH]; simpl.
  - split; [intros _ c []|reflexivity].
  - destruct (isWhiteSpace c) eqn:Hc.
    + rewrite IH. split.
      * intros H c' [<-|Hin]; [exact Hc | now apply H].
      * intros H c' Hin. apply H. now right.
    + split; [discriminate|].
      intros H. specialize (H c (or_introl eq_refl)). congruence.
Qed.

Lemma trimStart_head (s : JsString) (c : N) (rest : JsString) :
  trimStart s = c :: rest -> isWhiteSpace c = false.
Proof.
  induction s as [|a l IH]; simpl; [discriminate|].
  destruct (isWhiteSpace a) eqn:Ha; [exact IH|].
  intros E. injection E as <- _. exact Ha.
Qed.

(** [trim] leaves nothing exactly when every code unit is white space. *)
Lemma trim_blank_iff (s : JsString) :
  truthyText (trim s) = false
  <-> (forall c, In c s -> isWhiteSpace c = true).
Proof.
  rewrite <- trimStart_blank. unfold trim.
  destruct (trimStart s) as [|c rest] eqn:E.
  - simpl. split; reflexivity.
  - pose proof (@trimEnd_keeps_content c rest (@trimStart_head s c rest E))
      as Hne.
    destruct (trimEnd (c :: rest)); [contradiction|].
    simpl. split; discriminate.
Qed.

Lemma handleTextAreaBlur_discards (props : Props) (st : State) :
  truthyText (trim (textInput st)) = false ->
  handleTextAreaBlur props st = closeOverlay st.
Proof. intros H. unfold handleTextAreaBlur. now rewrite H. Qed.

Lemma handleTextAreaBlur_commits (props : Props) (st : State) (id : string) :
  editingText st = Some id -> truthy id = true ->
  truthyText (trim (textInput st)) = true ->
  let data := TextData (textInput st) (ds_color (drawingSettings props))
                       (ds_size (drawingSettings props)) in
  let newElements :=
    match findIndex id (elements st) with
    | Some i =>
        assignAt i (fun el => with_editing false (with_data data el))
                 (elements st)
    | None =>
        elements st ++ [mkElement id data (px (textPosition st))
                                  (py (textPosition st)) None None None
                                  (Some false)]
    end in
  handleTextAreaBlur props st
  = toast "Text saved!"
      (closeOverlay (addToHistory st newElements (setElements newElements st))).
Proof.
  intros He Hid Ht. unfold handleTextAreaBlur, handleTextSubmit.
  rewrite Ht, He, Hid. simpl.
  destruct (findIndex id (elements st)); reflexivity.
Qed.

(** C7 (amended). While the overlay is open: Escape closes it with the
    store, the history and the index unchanged; a blur whose content is empty
    or only white space does the same; a blur whose content has a
    non-white-space character commits once, appending one text element with
    the typed content, the current colour and size and the overlay's id and
    position, or, when an element with that id exists, replacing that
    element's payload in place, and in both cases pushes exactly one history
    entry, the new store.  The content counts as only white space exactly
    when every one of its code units is in the set that [trim] strips
    ([isWhiteSpace]). *)
Theorem text_overlay_commit_or_discard (props : Props) (st : State)
    (id : string) :
  validIndex st ->
  editingText st = Some id ->
  truthy id = true ->
  let data := TextData (textInput st) (ds_color (drawingSettings props))
                       (ds_size (drawingSettings props)) in
  let blurred := handleTextAreaBlur props st in
  (forall shift,
      handleKeyDown props (mkKey "Escape" shift) st = closeOverlay st)
  /\ (elements (closeOverlay st) = elements st
      /\ history (closeOverlay st) = history st
      /\ historyIndex (closeOverlay st) = historyIndex st
      /\ editingText (closeOverlay st) = None)
  /\ (truthyText (trim (textInput st)) = false -> blurred = closeOverlay st)
  /\ (truthyText (trim (textInput st)) = true ->
      history blurred
      = firstn (historyIndex st + 1) (history st) ++ [elements blurred]
      /\ List.length (history blurred) = (historyIndex st + 2)%nat
      /\ historyIndex blurred = (historyIndex st + 1)%nat
      /\ editingText blurred = None
      /\ (findIndex id (elements st) = None ->
          elements blurred
          = elements st
            ++ [mkElement id data (px (textPosition st)) (py (textPosition st))
                          None None None (Some false)])
      /\ (forall i, findIndex id (elements st) = Some i ->
          List.length (elements blurred) = List.length (elements st)
          /\ (exists el,
                nth_error (elements st) i = Some el /\ el_id el = id
                /\ nth_error (elements blurred) i
                   = Some (with_editing false (with_data data el)))
          /\ (forall j, i <> j ->
                nth_error (elements blurred) j = nth_error (elements st) j)))
  /\ (truthyText (trim (textInput st)) = false
      <-> forall c, In c (textInput st) -> isWhiteSpace c = true).
Proof.
  intros Hv He Hid data blurred.
  assert (Hlen : List.length (firstn (historyIndex st + 1) (history st))
                 = (historyIndex st + 1)%nat).
  { rewrite length_firstn. unfold validIndex in Hv. lia. }
  split; [|split; [|split; [|split; [|apply trim_blank_iff]]]].
  - intros shift. reflexivity.
  - repeat split.
  - apply handleTextAreaBlur_discards.
  - intros Ht. subst blurred.
    rewrite (handleTextAreaBlur_commits props st He Hid Ht). simpl.
    fold data.
    split; [reflexivity|].
    split; [rewrite length_app, Hlen; simpl; lia|].
    split; [rewrite length_app, Hlen; simpl; lia|].
    split; [reflexivity|].
    split.
    + intros Hnone. now rewrite Hnone.
    + intros i Hi. rewrite Hi.
      destruct (findIndex_some _ _ Hi) as (el & Hel & Hid').
      split; [apply assignAt_length|split].
      * exists el. split; [exact Hel | split; [exact Hid'|]].
        exact (@assignAt_same i
                 (fun e0 => with_editing false (with_data data e0)) _ _ Hel).
      * intros j Hij. now apply assignAt_other.
Qed.

(** ** Resizing *)

Lemma resize_se_example :
  resizeBounds Handle.se (mkBounds 0 0 50 50) 10 10 = mkBounds 0 0 60 60.
Proof. reflexivity. Qed.

Lemma resize_nw_example :
  resizeBounds Handle.nw (mkBounds 0 0 50 50) 10 10 = mkBounds 10 10 40 40.
Proof. reflexivity. Qed.

(** The box recomputed for a corner handle is at least 20 wide and high. *)
Lemma resize_corner_min_size (handle : Handle.t) (bounds : Bounds)
    (deltaX deltaY : Q) :
  In handle [Handle.nw; Handle.ne; Handle.sw; Handle.se] ->
  20 <= bwidth (resizeBounds handle bounds deltaX deltaY)
  /\ 20 <= bheight (resizeBounds handle bounds deltaX deltaY).
Proof.
  intros Hin. simpl in Hin.
  destruct Hin as [<-|[<-|[<-|[<-|[]]]]]; simpl; split; apply Q.le_max_l.
Qed.

(** The [switch] has no case for the four edge handles. *)
Lemma resize_edge_unchanged (handle : Handle.t) (bounds : Bounds)
    (deltaX deltaY : Q) :
  In handle [Handle.n; Handle.s; Handle.w; Handle.e] ->
  resizeBounds handle bounds deltaX deltaY = bounds.
Proof.
  intros Hin. simpl in Hin.
  destruct Hin as [<-|[<-|[<-|[<-|[]]]]]; reflexivity.
Qed.

(** A path keeps its points, hence its bounding box, through a resize: only
    its unused anchor is rewritten. *)
Lemma resize_path_keeps_bounds (handle : Handle.t) (deltaX deltaY : Q)
    (el : CanvasElement) :
  isText el = false ->
  getElementBounds (resizeElement handle deltaX deltaY el)
  = getElementBounds el.
Proof.
  unfold isText, resizeElement, getElementBounds.
  destruct el as [id [p0 ps c sz pr|txt c sz] x y wd ht sel ed]; simpl;
    [reflexivity | discriminate].
Qed.

(** * Further properties of the component *)

(** ** History *)

Lemma undo_history (st : State) : history (undo st) = history st.
Proof. unfold undo. repeat break_branch; reflexivity. Qed.

Lemma redo_history (st : State) : history (redo st) = history st.
Proof. unfold redo. repeat break_branch; reflexivity. Qed.

Lemma undo_index (st : State) :
  historyIndex (undo st) = (historyIndex st - 1)%nat.
Proof.
  unfold undo. destruct (Nat.ltb_spec 0 (historyIndex st)).
  - destruct (nth_error _ _); reflexivity.
  - lia.
Qed.

Lemma redo_index (st : State) :
  historyIndex (redo st)
  = Nat.min (historyIndex st + 1)
            (Nat.max (historyIndex st) (List.length (history st) - 1)).
Proof.
  unfold redo. rewrite redo_guard.
  destruct (Nat.ltb_spec (historyIndex st + 1) (List.length (history st))).
  - destruct (nth_error _ _); simpl; lia.
  - lia.
Qed.

(** After an undo or redo the store is the snapshot at the index, provided
    it was so before or the index moved. *)
Lemma undo_store (st : State) :
  validIndex st ->
  nth_error (history st) (historyIndex st) = Some (elements st) ->
  nth_error (history (undo st)) (historyIndex (undo st))
  = Some (elements (undo st)).
Proof.
  intros Hv Hcur. unfold validIndex in Hv.
  destruct (Nat.ltb_spec 0 (historyIndex st)) as [Hpos|Hz].
  - destruct (@nth_error_in_range _ (history st) (historyIndex st - 1))
      as [snap Hs]; [lia|].
    rewrite (undo_effective st Hpos Hs). simpl. exact Hs.
  - rewrite undo_at_start by lia. exact Hcur.
Qed.

Lemma redo_store (st : State) :
  nth_error (history st) (historyIndex st) = Some (elements st) ->
  nth_error (history (redo st)) (historyIndex (redo st))
  = Some (elements (redo st)).
Proof.
  intros Hcur.
  destruct (Nat.ltb_spec (historyIndex st + 1) (List.length (history st)))
    as [Hlt|Hge].
  - destruct (@nth_error_in_range _ (history st) (historyIndex st + 1))
      as [snap Hs]; [lia|].
    rewrite (redo_effective st Hlt Hs). simpl. exact Hs.
  - rewrite redo_at_tail by lia. exact Hcur.
Qed.

(** X1. The dual of undo-then-redo: when a later snapshot exists and the
    store is the current snapshot, [redo] followed by [undo] gives back the
    same store, history and index. *)
Theorem redo_undo_roundtrip (st : State) :
  (historyIndex st + 1 < List.length (history st))%nat ->
  nth_error (history st) (historyIndex st) = Some (elements st) ->
  elements (undo (redo st)) = elements st
  /\ history (undo (redo st)) = history st
  /\ historyIndex (undo (redo st)) = historyIndex st.
Proof.
  intros Hlt Hcur.
  destruct (@nth_error_in_range _ (history st) (historyIndex st + 1))
    as [next Hnext]; [lia|].
  rewrite (redo_effective st Hlt Hnext).
  set (st' := toast _ _).
  assert (Hi : historyIndex st' = (historyIndex st + 1)%nat) by reflexivity.
  assert (Hh : history st' = history st) by reflexivity.
  rewrite (@undo_effective st' (elements st)).
  - simpl. repeat split. lia.
  - rewrite Hi. lia.
  - rewrite Hh, Hi. replace (historyIndex st + 1 - 1)%nat with (historyIndex st) by lia.
    exact Hcur.
Qed.

Lemma undoTimes_facts (k : nat) (st : State) :
  validIndex st ->
  nth_error (history st) (historyIndex st) = Some (elements st) ->
  history (undoTimes k st) = history st
  /\ historyIndex (undoTimes k st) = (historyIndex st - k)%nat
  /\ nth_error (history st) (historyIndex st - k)
     = Some (elements (undoTimes k st)).
Proof.
  intros Hv Hcur. induction k as [|k (IHh & IHi & IHs)].
  - simpl. rewrite Nat.sub_0_r. auto.
  - unfold undoTimes in *. simpl.
    set (stk := Nat.iter k undo st) in *.
    assert (Hvk : validIndex stk).
    { unfold validIndex in *. rewrite IHh, IHi. lia. }
    assert (Hck : nth_error (history stk) (historyIndex stk) = Some (elements stk)).
    { rewrite IHh, IHi. exact IHs. }
    pose proof (undo_store Hvk Hck) as Hs.
    rewrite undo_history, undo_index in *.
    rewrite IHh, IHi in *.
    replace (historyIndex st - S k)%nat with (historyIndex st - k - 1)%nat by lia.
    auto.
Qed.

Lemma redoTimes_facts (k : nat) (st : State) :
  validIndex st ->
  nth_error (history st) (historyIndex st) = Some (elements st) ->
  history (redoTimes k st) = history st
  /\ historyIndex (redoTimes k st)
     = Nat.min (historyIndex st + k) (List.length (history st) - 1)
  /\ nth_error (history st)
               (Nat.min (historyIndex st + k) (List.length (history st) - 1))
     = Some (elements (redoTimes k st)).
Proof.
  intros Hv Hcur. unfold validIndex in Hv.
  induction k as [|k (IHh & IHi & IHs)].
  - simpl. replace (Nat.min _ _) with (historyIndex st) by lia. auto.
  - unfold redoTimes in *. simpl.
    set (stk := Nat.iter k redo st) in *.
    assert (Hck : nth_error (history stk) (historyIndex stk) = Some (elements stk)).
    { rewrite IHh, IHi. exact IHs. }
    pose proof (redo_store stk Hck) as Hs.
    rewrite redo_history, redo_index in *.
    rewrite IHh, IHi in *.
    match goal with
    | H : nth_error _ ?i = _ |- _ /\ ?j = ?k /\ _ =>
        assert (E : i = k) by lia; rewrite E in H
    end.
    split; [reflexivity | split; [lia | exact Hs]].
Qed.

(** X2. Repeated undo and redo walk the history without changing it: from a
    valid state whose store is the current snapshot, [k] undos stop at index
    [max (i - k) 0], [k] redos at [min (i + k) (length - 1)], and the store
    is then the snapshot at that index. *)
Theorem undo_redo_walk (k : nat) (st : State) :
  validIndex st ->
  nth_error (history st) (historyIndex st) = Some (elements st) ->
  (history (undoTimes k st) = history st
   /\ historyIndex (undoTimes k st) = (historyIndex st - k)%nat
   /\ nth_error (history st) (historyIndex st - k)
      = Some (elements (undoTimes k st)))
  /\ (history (redoTimes k st) = history st
      /\ historyIndex (redoTimes k st)
         = Nat.min (historyIndex st + k) (List.length (history st) - 1)
      /\ nth_error (history st)
                   (Nat.min (historyIndex st + k) (List.length (history st) - 1))
         = Some (elements (redoTimes k st))).
Proof.
  intros Hv Hcur. split.
  - now apply undoTimes_facts.
  - now apply redoTimes_facts.
Qed.

(** X3. In a state with a valid index, the undo button is disabled exactly
    when [undo] would change nothing, and the redo button exactly when
    [redo] would change nothing; an enabled button moves the index by one
    and notifies once. *)
Theorem buttons_disabled_iff_noop (st : State) :
  validIndex st ->
  (undoDisabled st = true <-> undo st = st)
  /\ (redoDisabled st = true <-> redo st = st)
  /\ (undoDisabled st = false ->
      historyIndex (undo st) = (historyIndex st - 1)%nat
      /\ toasts (undo st) = toasts st ++ ["Undone!"%string])
  /\ (redoDisabled st = false ->
      historyIndex (redo st) = (historyIndex st + 1)%nat
      /\ toasts (redo st) = toasts st ++ ["Redone!"%string]).
Proof.
  intros Hv. unfold validIndex in Hv. unfold undoDisabled, redoDisabled.
  split; [|split; [|split]].
  - split.
    + intros H. apply Z.leb_le in H. apply undo_at_start. lia.
    + intros H. apply Z.leb_le.
      pose proof (undo_index st) as Hi. rewrite H in Hi. lia.
  - split.
    + intros H. apply Z.leb_le in H. apply redo_at_tail. lia.
    + intros H. apply Z.leb_le.
      pose proof (redo_index st) as Hi. rewrite H in Hi. lia.
  - intros H. apply Z.leb_gt in H.
    destruct (@nth_error_in_range _ (history st) (historyIndex st - 1))
      as [snap Hs]; [lia|].
    rewrite (@undo_effective st snap) by (lia || exact Hs).
    split; reflexivity.
  - intros H. apply Z.leb_gt in H.
    destruct (@nth_error_in_range _ (history st) (historyIndex st + 1))
      as [snap Hs]; [lia|].
    rewrite (@redo_effective st snap) by (lia || exact Hs).
    split; reflexivity.
Qed.

Lemma nth_error_snoc_last {A} (l : list A) (x : A) :
  nth_error (l ++ [x]) (List.length (l ++ [x]) - 1) = Some x.
Proof.
  rewrite length_app. simpl.
  rewrite nth_error_app2 by lia.
  replace (List.length l + 1 - 1 - List.length l)%nat with 0%nat by lia.
  reflexivity.
Qed.

Ltac commit_or_same :=
  simpl in *;
  first [ congruence | apply nth_error_snoc_last ].

Lemma handleMouseDown_commit props canvas now ev (st : State) :
  history (handleMouseDown props canvas now ev st) <> history st ->
  nth_error (history (handleMouseDown props canvas now ev st))
            (historyIndex (handleMouseDown props canvas now ev st))
  = Some (elements (handleMouseDown props canvas now ev st)).
Proof.
  unfold handleMouseDown, updateElements.
  repeat break_branch; intros H; commit_or_same.
Qed.

Lemma handleMouseUp_commit props now (st : State) :
  history (handleMouseUp props now st) <> history st ->
  nth_error (history (handleMouseUp props now st))
            (historyIndex (handleMouseUp props now st))
  = Some (elements (handleMouseUp props now st)).
Proof.
  unfold handleMouseUp.
  repeat break_branch; intros H; commit_or_same.
Qed.

Lemma handleTextSubmit_commit props (st : State) :
  history (handleTextSubmit props st) <> history st ->
  nth_error (history (handleTextSubmit props st))
            (historyIndex (handleTextSubmit props st))
  = Some (elements (handleTextSubmit props st)).
Proof.
  unfold handleTextSubmit, closeOverlay.
  repeat break_branch; intros H; commit_or_same.
Qed.

(** X4. Whatever the event, if it changes the history then the snapshot at
    the new index is the element store it leaves behind (also for a clear
    through an older closure): every push records the store as it is. *)
Theorem every_push_records_the_store :
  (forall evt (st : State),
      history (step evt st) <> history st ->
      nth_error (history (step evt st)) (historyIndex (step evt st))
      = Some (elements (step evt st)))
  /\ (forall cl st : State,
        nth_error (history (clearCanvas cl st))
                  (historyIndex (clearCanvas cl st))
        = Some (elements (clearCanvas cl st))).
Proof.
  split.
  - intros evt st. destruct evt; simpl.
    + apply handleMouseDown_commit.
    + destruct (handleMouseMove_history props canvas ev st) as (Hh & _).
      congruence.
    + apply handleMouseUp_commit.
    + congruence.
    + unfold handleTextAreaBlur. destruct (truthyText _).
      * apply handleTextSubmit_commit.
      * simpl. congruence.
    + unfold handleKeyDown. repeat break_branch;
        try apply handleTextSubmit_commit; simpl; congruence.
    + unfold handleWheel, handleZoom. repeat break_branch; simpl; congruence.
    + unfold handleZoom. repeat break_branch; simpl; congruence.
    + rewrite undo_history. congruence.
    + rewrite redo_history. congruence.
    + intros _. unfold clearCanvas. simpl. apply nth_error_snoc_last.
  - intros cl st. unfold clearCanvas. simpl. apply nth_error_snoc_last.
Qed.

Lemma addToHistory_keeps_past (cl st : State) newElements (j : nat) :
  validIndex cl -> (j <= historyIndex cl)%nat ->
  nth_error (firstn (historyIndex cl + 1) (history cl) ++ [newElements]) j
  = nth_error (history cl) j.
Proof.
  intros Hv Hj. unfold validIndex in Hv.
  rewrite nth_error_app1 by (rewrite length_firstn; lia).
  rewrite nth_error_firstn.
  destruct (Nat.ltb_spec j (historyIndex cl + 1)); [reflexivity | lia].
Qed.

Ltac keeps_past Hv Hj :=
  simpl; first [ reflexivity | now apply addToHistory_keeps_past ].

(** X5. An event other than a clear never rewrites a snapshot at or before
    the current index: each position [j <= historyIndex] of the history
    holds the same snapshot afterwards.  A clear builds the new history from
    the history and the index that the closure it runs from captured: it
    keeps that closure's snapshots up to the closure's index and writes the
    empty store right after them, whatever the current history holds there.
    So a clear through a closure installed before a drag or resize release
    overwrites the snapshot that the release pushed. *)
Theorem past_snapshots_are_kept :
  (forall evt (st : State) (j : nat),
      evt <> ClearCanvas ->
      validIndex st ->
      (j <= historyIndex st)%nat ->
      nth_error (history (step evt st)) j = nth_error (history st) j)
  /\ (forall (cl st : State) (j : nat),
        validIndex cl ->
        (j <= historyIndex cl)%nat ->
        nth_error (history (clearCanvas cl st)) j = nth_error (history cl) j)
  /\ (forall cl st : State,
        validIndex cl ->
        nth_error (history (clearCanvas cl st)) (historyIndex cl + 1)
        = Some []
        /\ List.length (history (clearCanvas cl st))
           = (historyIndex cl + 2)%nat
        /\ historyIndex (clearCanvas cl st) = (historyIndex cl + 1)%nat).
Proof.
  split; [|split].
  - intros evt st j Hevt Hv Hj. destruct evt; simpl.
    + unfold handleMouseDown, updateElements.
      repeat break_branch; keeps_past Hv Hj.
    + destruct (handleMouseMove_history props canvas ev st) as (Hh & _).
      now rewrite Hh.
    + unfold handleMouseUp. repeat break_branch; keeps_past Hv Hj.
    + reflexivity.
    + unfold handleTextAreaBlur, handleTextSubmit, closeOverlay.
      repeat break_branch; keeps_past Hv Hj.
    + unfold handleKeyDown, handleTextSubmit, closeOverlay.
      repeat break_branch; keeps_past Hv Hj.
    + unfold handleWheel, handleZoom. repeat break_branch; reflexivity.
    + unfold handleZoom. repeat break_branch; reflexivity.
    + now rewrite undo_history.
    + now rewrite redo_history.
    + now contradiction Hevt.
  - intros cl st j Hv Hj. unfold clearCanvas. simpl.
    now apply addToHistory_keeps_past.
  - intros cl st Hv. unfold clearCanvas. simpl.
    assert (Hlen : List.length (firstn (historyIndex cl + 1) (history cl))
                   = (historyIndex cl + 1)%nat).
    { rewrite length_firstn. unfold validIndex in Hv. lia. }
    split; [|split].
    + rewrite nth_error_app2 by (rewrite Hlen; lia).
      rewrite Hlen, Nat.sub_diag. reflexivity.
    + rewrite length_app, Hlen. simpl. lia.
    + rewrite length_app, Hlen. simpl. lia.
Qed.

(** ** Gesture state *)

Ltac break_branch_eq :=
  match goal with
  | |- context [if ?c then _ else _] => destruct c eqn:?
  | |- context [match ?x with _ => _ end] => destruct x eqn:?
  end.

Ltac solve_gesture :=
  simpl; intros Hd Hr; split; intros Ht;
  try discriminate Ht; try congruence; auto;
  try (intros E; apply app_eq_nil in E; destruct E; discriminate);
  try (specialize (Hr Ht); congruence);
  try (specialize (Hd Ht); congruence).

Lemma step_gestureConsistent evt (st : State) :
  gestureConsistent st -> gestureConsistent (step evt st).
Proof.
  unfold gestureConsistent. intros [Hd Hr]. revert Hd Hr.
  destruct evt; simpl.
  - unfold handleMouseDown, updateElements.
    repeat break_branch_eq; solve_gesture.
  - unfold handleMouseMove, updateElements.
    repeat break_branch_eq; solve_gesture.
  - unfold handleMouseUp. repeat break_branch_eq; solve_gesture.
  - solve_gesture.
  - unfold handleTextAreaBlur, handleTextSubmit, closeOverlay.
    repeat break_branch_eq; solve_gesture.
  - unfold handleKeyDown, handleTextSubmit, closeOverlay.
    repeat break_branch_eq; solve_gesture.
  - unfold handleWheel, handleZoom. repeat break_branch_eq; solve_gesture.
  - unfold handleZoom. repeat break_branch_eq; solve_gesture.
  - unfold undo. repeat break_branch_eq; solve_gesture.
  - unfold redo. repeat break_branch_eq; solve_gesture.
  - solve_gesture.
Qed.


(** ** Bounding boxes under translation *)

Lemma minOf_shift (d h : Q) (t : list Q) :
  minOf (h + d) (map (fun x => x + d) t) == minOf h t + d.
Proof.
  unfold minOf. revert h. induction t as [|a t IH]; intros h; simpl.
  - reflexivity.
  - rewrite <- IH. clear IH.
    assert (E : Qmin (h + d) (a + d) == Qmin h a + d)
      by apply Q.plus_min_distr_r.
    revert E. generalize (Qmin (h + d) (a + d)) (Qmin h a + d).
    induction (map (fun x => x + d) t) as [|b l IHl]; intros u v E; simpl.
    + exact E.
    + apply IHl. now rewrite E.
Qed.

Lemma maxOf_shift (d h : Q) (t : list Q) :
  maxOf (h + d) (map (fun x => x + d) t) == maxOf h t + d.
Proof.
  unfold maxOf. revert h. induction t as [|a t IH]; intros h; simpl.
  - reflexivity.
  - rewrite <- IH. clear IH.
    assert (E : Qmax (h + d) (a + d) == Qmax h a + d)
      by apply Q.plus_max_distr_r.
    revert E. generalize (Qmax (h + d) (a + d)) (Qmax h a + d).
    induction (map (fun x => x + d) t) as [|b l IHl]; intros u v E; simpl.
    + exact E.
    + apply IHl. now rewrite E.
Qed.

Lemma dragElement_box (deltaX deltaY : Q) (el : CanvasElement) :
  let moved := dragElement deltaX deltaY el in
  bx (getElementBounds moved) == bx (getElementBounds el) + deltaX
  /\ by_ (getElementBounds moved) == by_ (getElementBounds el) + deltaY
  /\ bwidth (getElementBounds moved) == bwidth (getElementBounds el)
  /\ bheight (getElementBounds moved) == bheight (getElementBounds el)
  /\ el_id moved = el_id el
  /\ isText moved = isText el
  /\ el_selected moved = el_selected el
  /\ el_editing moved = el_editing el.
Proof.
  unfold dragElement, isText, Canvas.getElementBounds.
  destruct el as [id [p0 ps c sz pr | txt c sz] x y wd ht sel ed]; simpl.
  - rewrite !map_map. simpl.
    rewrite <- (map_map px (fun v => v + deltaX)).
    rewrite <- (map_map py (fun v => v + deltaY)).
    rewrite !minOf_shift, !maxOf_shift.
    repeat split; try reflexivity; ring.
  - destruct measureText; simpl; repeat split; reflexivity.
Qed.

(** ** Dragging and panning *)

(** A pointer move while dragging with the select tool applies the drag
    updater to the elements with the selected id only, re-anchors the sample
    and leaves the history alone. *)
Lemma drag_move_state (props : Props)
    (canvas : option CanvasNode) (ev : MouseEvent) (st : State) :
  activeTool props = SelectTool ->
  isDragging st = true ->
  isResizing st = false ->
  isPanning st = false ->
  truthyOpt (selectedElement st) = true ->
  let pos := getMousePos canvas st ev in
  let st' := handleMouseMove props canvas ev st in
  elements st'
  = map (fun el =>
           if isSelectedId st (el_id el)
           then dragElement (px pos - px (dragStart st))
                            (py pos - py (dragStart st)) el
           else el)
        (elements st)
  /\ dragStart st' = pos
  /\ history st' = history st
  /\ historyIndex st' = historyIndex st
  /\ selectedElement st' = selectedElement st.
Proof.
  intros Htool Hdrag Hres Hpan Hsel pos st'. subst st' pos.
  unfold handleMouseMove, updateElements.
  rewrite Htool, Hdrag, Hres, Hpan, Hsel. simpl.
  destruct (isDrawing st); simpl;
    destruct (resizeHandle st); simpl; repeat split; reflexivity.
Qed.


(** ** Starting a resize *)

Lemma ltq_true (a b : Q) : ltq a b = true -> a < b.
Proof.
  unfold ltq. intros H. apply negb_true_iff in H.
  apply Qnot_le_lt. intros Hle. apply Qle_bool_iff in Hle. congruence.
Qed.

(** Every handle centre lies 5 units outside the box, so a point of the box
    is within the tolerance [8 / zoom] of a handle only if that tolerance
    exceeds 5. *)
Lemma no_handle_inside_box (st : State) (pos : Point) (el : CanvasElement) :
  (8 # 5) <= zoom st ->
  inBounds pos (getElementBounds el) = true ->
  getResizeHandle st pos el = None.
Proof.
  intros Hz Hin. apply inBounds_spec in Hin.
  destruct Hin as (X1 & X2 & Y1 & Y2).
  assert (Htol : 8 / zoom st <= 5).
  { apply Qle_shift_div_r; lra. }
  unfold Canvas.getResizeHandle.
  destruct (find _ _) as [h|] eqn:Hf; [|reflexivity]. exfalso.
  apply find_some in Hf. destruct Hf as [Hh Hc].
  apply andb_true_iff in Hc. destruct Hc as [Hcx Hcy].
  apply ltq_true in Hcx, Hcy.
  apply Qabs_Qlt_condition in Hcx, Hcy.
  destruct Hcx as [Hx1 Hx2], Hcy as [Hy1 Hy2].
  unfold handleTable in Hh. simpl in Hh.
  destruct Hh as [<-|[<-|[<-|[<-|[<-|[<-|[<-|[<-|[]]]]]]]]];
    simpl in Hx1, Hx2, Hy1, Hy2; lra.
Qed.



(** ** Keyboard and selection *)

(** X12. In every state, Enter without Shift does exactly what losing focus
    does (commit when the trimmed content is non-empty, otherwise close the
    overlay); Shift+Enter and every key other than Enter and Escape leave the
    state unchanged. *)
Theorem enter_acts_like_blur (props : Props) (st : State) :
  handleKeyDown props (mkKey "Enter" false) st = handleTextAreaBlur props st
  /\ handleKeyDown props (mkKey "Enter" true) st = st
  /\ (forall k shift,
        k <> "Enter"%string -> k <> "Escape"%string ->
        handleKeyDown props (mkKey k shift) st = st).
Proof.
  split; [|split].
  - unfold handleKeyDown, handleTextAreaBlur, handleTextSubmit. simpl.
    destruct (editingText st) as [editing|];
      destruct (truthyText (trim (textInput st))); simpl; reflexivity.
  - reflexivity.
  - intros k shift Hk1 Hk2. unfold handleKeyDown. simpl.
    apply String.eqb_neq in Hk1, Hk2. rewrite Hk1, Hk2. reflexivity.
Qed.

Lemma hit_element_in_store (els : list CanvasElement) (pos : Point)
    (element : CanvasElement) :
  getElementAtPosition els pos = Some element ->
  In element els /\ inBounds pos (getElementBounds element) = true.
Proof.
  rewrite getElementAtPosition_find. intros H.
  apply find_some in H. destruct H as [Hin Hp].
  split; [now apply in_rev | exact Hp].
Qed.

(** X13. A press with the select tool on an element that is not the
    selected one selects it and starts a drag: [selectedElement] becomes its
    id, every element of the store gets [selected] set to whether its id is
    that id (nothing else of it changes), so the selection border is drawn
    exactly for the elements with that id; a press on empty space clears
    [selectedElement] and every [selected] flag.  Neither pushes history. *)
Theorem select_press_marks_target_only (props : Props)
    (canvas : option CanvasNode) (now : N) (ev : MouseEvent) (st : State) :
  activeTool props = SelectTool ->
  (button ev =? 1)%Z = false ->
  ctrlKey ev = false ->
  let pos := getMousePos canvas st ev in
  let st' := handleMouseDown props canvas now ev st in
  (forall element,
      getElementAtPosition (elements st) pos = Some element ->
      isSelectedId st (el_id element) = false ->
      selectedElement st' = Some (el_id element)
      /\ isDragging st' = true
      /\ dragStart st' = pos
      /\ elements st'
         = map (fun el =>
                  with_selected (String.eqb (el_id el) (el_id element)) el)
               (elements st)
      /\ (forall el, In el (elements st') ->
                     drawsSelection st' el
                     = String.eqb (el_id el) (el_id element))
      /\ history st' = history st)
  /\ (getElementAtPosition (elements st) pos = None ->
      selectedElement st' = None
      /\ elements st' = map (with_selected false) (elements st)
      /\ (forall el, In el (elements st') -> drawsSelection st' el = false)
      /\ history st' = history st).
Proof.
  intros Htool Hb Hc pos st'. subst st' pos.
  unfold Canvas.handleMouseDown, updateElements. rewrite Htool, Hb, Hc. simpl.
  split.
  - intros element Hhit Hsel. rewrite Hhit, Hsel. simpl.
    repeat split.
    intros el Hin. apply in_map_iff in Hin. destruct Hin as (el0 & <- & _).
    unfold drawsSelection. simpl.
    destruct (String.eqb (el_id el0) (el_id element)); reflexivity.
  - intros Hnone. rewrite Hnone. simpl. repeat split.
    intros el Hin. apply no_selection_no_chrome. reflexivity.
Qed.

Lemma filter_length_lt {A} (f : A -> bool) (l : list A) (x : A) :
  In x l -> f x = false -> (List.length (filter f l) < List.length l)%nat.
Proof.
  induction l as [|a l IH]; intros Hin Hf; [destruct Hin|].
  simpl. pose proof (filter_length_le f l) as Hle.
  destruct Hin as [->|Hin].
  - rewrite Hf. lia.
  - specialize (IH Hin Hf). destruct (f a); simpl; lia.
Qed.

(** X14. A press with the eraser (no pan forced) on a point that hits an
    element removes every element carrying the hit element's id, keeps all
    others in order, shortens the store, pushes the new store as one history
    entry and notifies once; a press that hits nothing changes nothing. *)
Theorem eraser_press_removes_hit_element (props : Props)
    (canvas : option CanvasNode) (now : N) (ev : MouseEvent) (st : State) :
  activeTool props = EraserTool ->
  (button ev =? 1)%Z = false ->
  ctrlKey ev = false ->
  let pos := getMousePos canvas st ev in
  let st' := handleMouseDown props canvas now ev st in
  (forall element,
      getElementAtPosition (elements st) pos = Some element ->
      elements st'
      = filter (fun el => negb (String.eqb (el_id el) (el_id element)))
               (elements st)
      /\ (forall el, In el (elements st') <->
                     In el (elements st) /\ el_id el <> el_id element)
      /\ (List.length (elements st') < List.length (elements st))%nat
      /\ history st'
         = firstn (historyIndex st + 1) (history st) ++ [elements st']
      /\ toasts st' = toasts st ++ ["Element erased!"%string])
  /\ (getElementAtPosition (elements st) pos = None -> st' = st).
Proof.
  intros Htool Hb Hc pos st'. subst st' pos.
  unfold Canvas.handleMouseDown. rewrite Htool, Hb, Hc. simpl.
  split.
  - intros element Hhit. rewrite Hhit. simpl.
    destruct (hit_element_in_store _ _ Hhit) as [Hin _].
    split; [reflexivity | split; [|split; [|split; reflexivity]]].
    + intros el. rewrite filter_In, negb_true_iff, String.eqb_neq. tauto.
    + apply (filter_length_lt _ _ element Hin).
      now rewrite String.eqb_refl.
  - intros Hnone. now rewrite Hnone.
Qed.

(** ** In-place text editing *)

Lemma findIndex_map (f : CanvasElement -> CanvasElement) (id : string)
    (els : list CanvasElement) :
  (forall el, el_id (f el) = el_id el) ->
  findIndex id (map f els) = findIndex id els.
Proof.
  intros Hf. induction els as [|a l IH]; simpl; [reflexivity|].
  rewrite Hf, IH. reflexivity.
Qed.

Lemma findIndex_of_member (el : CanvasElement) (els : list CanvasElement) :
  In el els -> exists i, findIndex (el_id el) els = Some i.
Proof.
  induction els as [|a l IH]; intros Hin; [destruct Hin|]. simpl.
  destruct (String.eqb (el_id a) (el_id el)) eqn:E; [eauto|].
  destruct Hin as [->|Hin].
  - rewrite String.eqb_refl in E. discriminate.
  - destruct (IH Hin) as [i Hi]. rewrite Hi. simpl. eauto.
Qed.

(** The state after a press with the select tool on the selected text
    element, away from its handles. *)
Lemma edit_press_opens_overlay (props : Props) (canvas : option CanvasNode)
    (now : N) (ev : MouseEvent) (st : State) (element : CanvasElement)
    (txt : JsString) (color : string) (size : Q) :
  activeTool props = SelectTool ->
  (button ev =? 1)%Z = false ->
  ctrlKey ev = false ->
  getElementAtPosition (elements st) (getMousePos canvas st ev) = Some element ->
  isSelectedId st (el_id element) = true ->
  getResizeHandle st (getMousePos canvas st ev) element = None ->
  el_data element = TextData txt color size ->
  handleMouseDown props canvas now ev st
  = updateElements
      (map (fun el =>
              with_editing (String.eqb (el_id el) (el_id element))
                           (with_selected false el)))
      (setTextPosition (mkPoint (el_x element) (el_y element))
         (setTextInput txt (setEditingText (Some (el_id element)) st))).
Proof.
  intros Htool Hb Hc Hhit Hsel Hh Hd.
  unfold Canvas.handleMouseDown. rewrite Htool, Hb, Hc. simpl.
  rewrite Hhit, Hsel, Hh, Hd. reflexivity.
Qed.

(** X15. Cancelling an in-place edit does not restore the edited text: the
    press that opens the overlay on the selected text element sets
    [editing] on every element with its id and clears every [selected]
    flag; Escape then only closes the overlay, so those text elements stay
    flagged, [redrawCanvas] skips them, and no selection border is drawn. *)
Theorem cancelled_edit_leaves_text_hidden (props props' : Props)
    (canvas : option CanvasNode) (now : N) (ev : MouseEvent) (shift : bool)
    (st : State) (element : CanvasElement) (txt : JsString) (color : string) (size : Q) :
  activeTool props = SelectTool ->
  (button ev =? 1)%Z = false ->
  ctrlKey ev = false ->
  getElementAtPosition (elements st) (getMousePos canvas st ev) = Some element ->
  isSelectedId st (el_id element) = true ->
  getResizeHandle st (getMousePos canvas st ev) element = None ->
  el_data element = TextData txt color size ->
  let st1 := handleMouseDown props canvas now ev st in
  let st2 := handleKeyDown props' (mkKey "Escape" shift) st1 in
  (editingText st1 = Some (el_id element) /\ textInput st1 = txt)
  /\ editingText st2 = None
  /\ elements st2
     = map (fun el =>
              with_editing (String.eqb (el_id el) (el_id element))
                           (with_selected false el))
           (elements st)
  /\ history st2 = history st
  /\ (exists el, In el (elements st2) /\ el_id el = el_id element
                 /\ el_data el = TextData txt color size
                 /\ drawsElement el = false)
  /\ (forall el, In el (elements st2) -> drawsSelection st2 el = false).
Proof.
  intros Htool Hb Hc Hhit Hsel Hh Hd st1 st2. subst st2 st1.
  rewrite (edit_press_opens_overlay props canvas now ev st
             Htool Hb Hc Hhit Hsel Hh Hd).
  unfold handleKeyDown, updateElements, closeOverlay. simpl.
  split; [split; reflexivity|].
  split; [reflexivity|]. split; [reflexivity|]. split; [reflexivity|].
  destruct (hit_element_in_store _ _ Hhit) as [Hin _].
  split.
  - exists (with_editing (String.eqb (el_id element) (el_id element))
                         (with_selected false element)).
    split; [|split; [reflexivity | split]].
    + apply in_map_iff. exists element. split; [reflexivity | exact Hin].
    + exact Hd.
    + unfold drawsElement. simpl. rewrite Hd, String.eqb_refl. reflexivity.
  - intros el Hel. apply in_map_iff in Hel. destruct Hel as (el0 & <- & _).
    unfold drawsSelection. reflexivity.
Qed.

(** X16. Opening the selected text element for editing and submitting with
    Enter never duplicates it: the store keeps its length, the first element
    carrying that id gets the submitted text with the current colour and
    size and [editing = false], every other element only has the flags set
    by the opening press, and one history entry, the new store, is pushed. *)
Theorem edit_then_enter_updates_in_place (props props' : Props)
    (canvas : option CanvasNode) (now : N) (ev : MouseEvent)
    (st : State) (element : CanvasElement) (txt : JsString) (color : string) (size : Q) :
  activeTool props = SelectTool ->
  (button ev =? 1)%Z = false ->
  ctrlKey ev = false ->
  getElementAtPosition (elements st) (getMousePos canvas st ev) = Some element ->
  isSelectedId st (el_id element) = true ->
  getResizeHandle st (getMousePos canvas st ev) element = None ->
  el_data element = TextData txt color size ->
  truthyText (trim txt) = true ->
  truthy (el_id element) = true ->
  let opened := fun el =>
    with_editing (String.eqb (el_id el) (el_id element))
                 (with_selected false el) in
  let data := TextData txt (ds_color (drawingSettings props'))
                       (ds_size (drawingSettings props')) in
  let st1 := handleMouseDown props canvas now ev st in
  let st2 := handleKeyDown props' (mkKey "Enter" false) st1 in
  List.length (elements st2) = List.length (elements st)
  /\ editingText st2 = None
  /\ history st2
     = firstn (historyIndex st + 1) (history st) ++ [elements st2]
  /\ exists i el0,
       findIndex (el_id element) (elements st) = Some i
       /\ nth_error (elements st) i = Some el0
       /\ nth_error (elements st2) i
          = Some (with_editing false (with_data data (opened el0)))
       /\ forall j, i <> j ->
            nth_error (elements st2) j
            = option_map opened (nth_error (elements st) j).
Proof.
  intros Htool Hb Hc Hhit Hsel Hh Hd Htxt Hid opened data st1 st2.
  subst st2 st1.
  rewrite (edit_press_opens_overlay props canvas now ev st
             Htool Hb Hc Hhit Hsel Hh Hd).
  destruct (hit_element_in_store _ _ Hhit) as [Hin _].
  destruct (findIndex_of_member element (elements st) Hin) as [i Hi].
  destruct (findIndex_some _ _ Hi) as (el0 & Hel0 & Hid0).
  unfold handleKeyDown, handleTextSubmit, updateElements, closeOverlay. simpl.
  rewrite Htxt, Hid. simpl.
  fold opened. fold data.
  rewrite (findIndex_map opened (el_id element) (elements st))
    by reflexivity.
  rewrite Hi. simpl.
  split; [now rewrite assignAt_length, length_map|].
  split; [reflexivity|]. split; [reflexivity|].
  exists i, el0. split; [reflexivity | split; [exact Hel0 | split]].
  - apply (@assignAt_same i
             (fun e0 => with_editing false (with_data data e0))).
    rewrite nth_error_map, Hel0. reflexivity.
  - intros j Hij. rewrite assignAt_other by exact Hij.
    apply nth_error_map.
Qed.

(** ** Undoing a push *)

Lemma step_history_shape evt (st : State) :
  history (step evt st) = history st
  \/ exists pushed,
       history (step evt st)
       = firstn (historyIndex st + 1) (history st) ++ [pushed]
       /\ historyIndex (step evt st)
          = (List.length (firstn (historyIndex st + 1) (history st)))%nat.
Proof.
  assert (Hpush : forall (l : list (list CanvasElement)) x,
            (List.length (l ++ [x]) - 1 = List.length l)%nat).
  { intros l x. rewrite length_app. simpl. lia. }
  destruct evt; simpl.
  - unfold Canvas.handleMouseDown, updateElements.
    repeat break_branch; simpl; eauto.
  - left. apply handleMouseMove_history.
  - unfold handleMouseUp. repeat break_branch; simpl; eauto.
  - now left.
  - unfold handleTextAreaBlur, handleTextSubmit, closeOverlay.
    repeat break_branch; simpl; eauto.
  - unfold handleKeyDown, handleTextSubmit, closeOverlay.
    repeat break_branch; simpl; eauto.
  - left. unfold handleWheel, handleZoom. repeat break_branch; reflexivity.
  - left. unfold handleZoom. repeat break_branch; reflexivity.
  - left. apply undo_history.
  - left. apply redo_history.
  - right. unfold clearCanvas. simpl. eauto.
Qed.

Lemma undo_after_push (s' : State) (h : list (list CanvasElement))
    (i : nat) (pushed : list CanvasElement) :
  (i < List.length h)%nat ->
  history s' = firstn (i + 1) h ++ [pushed] ->
  historyIndex s' = (i + 1)%nat ->
  historyIndex (undo s') = i
  /\ nth_error h i = Some (elements (undo s'))
  /\ selectedElement (undo s') = None.
Proof.
  intros Hv Hh Hi.
  destruct (@nth_error_in_range _ h i) as [snap Hs]; [exact Hv|].
  assert (Hprev : nth_error (history s') (historyIndex s' - 1) = Some snap).
  { rewrite Hh, Hi.
    replace (i + 1 - 1)%nat with i by lia.
    rewrite nth_error_app1 by (rewrite length_firstn; lia).
    rewrite nth_error_firstn.
    destruct (Nat.ltb_spec i (i + 1)); [|lia].
    exact Hs. }
  rewrite (@undo_effective s' snap) by (lia || exact Hprev).
  simpl. rewrite Hi. repeat split; try lia. exact Hs.
Qed.

(** X17. Every push made by an event other than a clear can be undone: when
    such an event changes the history of a state with a valid index, the
    new snapshot sits right after the old index, and an [undo] straight
    after the event returns to the old index with the store set to the
    snapshot that was current before the event.  An [undo] straight after a
    clear returns to the index and to the snapshot that were current in the
    closure the clear ran from: those of the state before the clear only
    when no drag or resize release happened since that closure was
    installed. *)
Theorem undo_after_push_restores_snapshot :
  (forall evt (st : State),
      evt <> ClearCanvas ->
      validIndex st ->
      history (step evt st) <> history st ->
      historyIndex (step evt st) = (historyIndex st + 1)%nat
      /\ historyIndex (undo (step evt st)) = historyIndex st
      /\ nth_error (history st) (historyIndex st)
         = Some (elements (undo (step evt st)))
      /\ selectedElement (undo (step evt st)) = None)
  /\ (forall cl st : State,
        validIndex cl ->
        historyIndex (clearCanvas cl st) = (historyIndex cl + 1)%nat
        /\ historyIndex (undo (clearCanvas cl st)) = historyIndex cl
        /\ nth_error (history cl) (historyIndex cl)
           = Some (elements (undo (clearCanvas cl st)))
        /\ selectedElement (undo (clearCanvas cl st)) = None).
Proof.
  split.
  - intros evt st _ Hv Hchg. unfold validIndex in Hv.
    destruct (step_history_shape evt st) as [Hsame | (pushed & Hh & Hi)];
      [contradiction|].
    rewrite length_firstn in Hi.
    assert (Hi' : historyIndex (step evt st) = (historyIndex st + 1)%nat)
      by lia.
    split; [exact Hi'|].
    exact (@undo_after_push (step evt st) (history st) (historyIndex st)
             pushed Hv Hh Hi').
  - intros cl st Hv. unfold validIndex in Hv.
    assert (Hi : historyIndex (clearCanvas cl st) = (historyIndex cl + 1)%nat).
    { unfold clearCanvas. simpl. rewrite length_app, length_firstn.
      simpl. lia. }
    split; [exact Hi|].
    exact (@undo_after_push (clearCanvas cl st) (history cl) (historyIndex cl)
             [] Hv eq_refl Hi).
Qed.

(** ** A whole pencil gesture *)

Lemma pencil_move (props : Props) (canvas : option CanvasNode)
    (st0 : State) (ev : MouseEvent) (s : State) :
  activeTool props = PencilTool ->
  isPanning s = false -> isDrawing s = true -> isResizing s = false ->
  zoom s = zoom st0 -> panOffset s = panOffset st0 ->
  let s1 := handleMouseMove props canvas ev s in
  (isPanning s1 = false /\ isDrawing s1 = true /\ isResizing s1 = false
   /\ zoom s1 = zoom st0 /\ panOffset s1 = panOffset st0)
  /\ currentPath s1 = currentPath s ++ [getMousePos canvas st0 ev]
  /\ elements s1 = elements s /\ history s1 = history s
  /\ historyIndex s1 = historyIndex s.
Proof.
  intros Htool Hp Hd Hr Hz Ho s1.
  assert (Hpos : getMousePos canvas s ev = getMousePos canvas st0 ev).
  { unfold getMousePos. now rewrite Hz, Ho. }
  subst s1. unfold Canvas.handleMouseMove, updateElements.
  rewrite Hpos, Htool, Hp, Hd, Hr. simpl. rewrite !andb_false_r. simpl.
  repeat break_branch; simpl; repeat split; auto.
Qed.

Lemma pencil_moves (props : Props) (canvas : option CanvasNode)
    (st0 : State) (moves : list MouseEvent) :
  activeTool props = PencilTool ->
  forall s : State,
    isPanning s = false -> isDrawing s = true -> isResizing s = false ->
    zoom s = zoom st0 -> panOffset s = panOffset st0 ->
    let s' := run (map (MouseMove props canvas) moves) s in
    (isPanning s' = false /\ isDrawing s' = true
     /\ zoom s' = zoom st0 /\ panOffset s' = panOffset st0)
    /\ currentPath s' = currentPath s ++ worldPositions canvas st0 moves
    /\ elements s' = elements s /\ history s' = history s
    /\ historyIndex s' = historyIndex s.
Proof.
  intros Htool. induction moves as [|ev moves IH]; intros s Hp Hd Hr Hz Ho.
  - simpl. rewrite app_nil_r. auto 10.
  - destruct (pencil_move props canvas st0 ev s Htool Hp Hd Hr Hz Ho)
      as ((Hp1 & Hd1 & Hr1 & Hz1 & Ho1) & Hc1 & He1 & Hh1 & Hi1).
    destruct (IH _ Hp1 Hd1 Hr1 Hz1 Ho1) as (A & C & D & E & F).
    unfold Canvas.run in *. simpl in *.
    split; [exact A|].
    split; [rewrite C, Hc1, <- app_assoc; reflexivity|].
    split; [congruence | split; congruence].
Qed.

(** X18. A whole pencil gesture (press, any number of moves, release) from
    a state that is neither panning nor resizing appends exactly one path to
    the store: its points are the world positions of the press and of every
    move, in order, its colour, size and pressure are the drawing settings,
    its id is built from the release time; exactly that new store is pushed
    onto the history and the in-progress stroke is cleared. *)
Theorem pencil_gesture_appends_stroke (props : Props)
    (canvas : option CanvasNode) (pressedAt releasedAt : N)
    (press : MouseEvent) (moves : list MouseEvent) (st : State) :
  activeTool props = PencilTool ->
  (button press =? 1)%Z = false ->
  ctrlKey press = false ->
  isPanning st = false ->
  isResizing st = false ->
  let st' := run (strokeGesture props canvas pressedAt releasedAt press moves)
                 st in
  let stroke :=
    mkElement ("path-" ++ showN releasedAt)%string
              (PathData (getMousePos canvas st press)
                        (worldPositions canvas st moves)
                        (ds_color (drawingSettings props))
                        (ds_size (drawingSettings props))
                        (ds_pressure (drawingSettings props)))
              0 0 None None None None in
  elements st' = elements st ++ [stroke]
  /\ history st'
     = firstn (historyIndex st + 1) (history st) ++ [elements st ++ [stroke]]
  /\ currentPath st' = []
  /\ isDrawing st' = false
  /\ zoom st' = zoom st
  /\ panOffset st' = panOffset st.
Proof.
  intros Htool Hb Hc Hpan Hres st' stroke. subst st'.
  unfold strokeGesture, Canvas.run. simpl.
  rewrite fold_left_app. simpl.
  set (s0 := Canvas.handleMouseDown measureText props canvas pressedAt press st).
  assert (H0 : isPanning s0 = false /\ isDrawing s0 = true
               /\ isResizing s0 = false /\ zoom s0 = zoom st
               /\ panOffset s0 = panOffset st
               /\ currentPath s0 = [getMousePos canvas st press]
               /\ elements s0 = elements st /\ history s0 = history st
               /\ historyIndex s0 = historyIndex st).
  { subst s0. unfold Canvas.handleMouseDown. rewrite Htool, Hb, Hc. simpl.
    repeat split; auto. }
  destruct H0 as (Hp0 & Hd0 & Hr0 & Hz0 & Ho0 & Hc0 & He0 & Hh0 & Hi0).
  destruct (pencil_moves props canvas st moves Htool s0 Hp0 Hd0 Hr0 Hz0 Ho0)
    as ((Hp1 & Hd1 & Hz1 & Ho1) & Hc1 & He1 & Hh1 & Hi1).
  unfold Canvas.run in *.
  set (s1 := fold_left _ (map (MouseMove props canvas) moves) s0) in *.
  unfold handleMouseUp. rewrite Hp1, Hd1, Htool, Hc1, Hc0. simpl.
  rewrite He1, He0, Hh1, Hh0, Hi1, Hi0.
  fold stroke.
  split; [reflexivity|]. split; [reflexivity|]. split; [reflexivity|].
  split; [reflexivity|].
  split; [|].
  - destruct (isDragging s1 || isResizing s1); simpl; congruence.
  - destruct (isDragging s1 || isResizing s1); simpl; congruence.
Qed.

(** ** A whole drag gesture *)

Lemma movedBy_refl (el : CanvasElement) : movedBy 0 0 el el.
Proof. unfold Canvas.movedBy. repeat split; try reflexivity; ring. Qed.

Lemma movedBy_drag (dx dy ex ey tx ty : Q) (el el' : CanvasElement) :
  tx == dx + ex -> ty == dy + ey ->
  movedBy dx dy el el' ->
  movedBy tx ty el (dragElement ex ey el').
Proof.
  intros Hx Hy (Hid & Hk & Hs & He & H1 & H2 & H3 & H4).
  destruct (dragElement_box ex ey el')
    as (D1 & D2 & D3 & D4 & Did & Dk & Ds & De).
  unfold Canvas.movedBy.
  repeat split; try congruence.
  - rewrite D1, H1, Hx. ring.
  - rewrite D2, H2, Hy. ring.
  - now rewrite D3.
  - now rewrite D4.
Qed.


(** The store during a drag of the elements with id [id], anchored at
    [p], relative to the store [base] right after the press at [p0]. *)
Lemma drag_moves (props : Props) (canvas : option CanvasNode)
    (st0 : State) (id : string) (p0 : Point) (base : list CanvasElement)
    (moves : list MouseEvent) :
  activeTool props = SelectTool ->
  truthy id = true ->
  forall s : State,
    isPanning s = false -> isDragging s = true -> isResizing s = false ->
    selectedElement s = Some id ->
    zoom s = zoom st0 -> panOffset s = panOffset st0 ->
    Forall2 (fun el el' =>
               if String.eqb id (el_id el)
               then movedBy (px (dragStart s) - px p0)
                            (py (dragStart s) - py p0) el el'
               else el' = el)
            base (elements s) ->
    let s' := run (map (MouseMove props canvas) moves) s in
    let final := last (worldPositions canvas st0 moves) (dragStart s) in
    isPanning s' = false /\ isDragging s' = true /\ isResizing s' = false
    /\ selectedElement s' = Some id
    /\ history s' = history s /\ historyIndex s' = historyIndex s
    /\ Forall2 (fun el el' =>
                  if String.eqb id (el_id el)
                  then movedBy (px final - px p0) (py final - py p0) el el'
                  else el' = el)
               base (elements s').
Proof.
  intros Htool Hid. induction moves as [|ev moves IH];
    intros s Hp Hd Hr Hsel Hz Ho Hrel.
  - simpl. auto 10.
  - assert (Hpos : getMousePos canvas s ev = getMousePos canvas st0 ev).
    { unfold getMousePos. now rewrite Hz, Ho. }
    assert (Ht : truthyOpt (selectedElement s) = true)
      by (rewrite Hsel; exact Hid).
    destruct (drag_move_state props canvas ev s Htool Hd Hr Hp Ht)
      as (He1 & Hds1 & Hh1 & Hi1 & Hs1).
    rewrite Hpos in He1, Hds1.
    set (s1 := Canvas.handleMouseMove measureText props canvas ev s) in *.
    assert (Hflags : isPanning s1 = false /\ isDragging s1 = true
                     /\ isResizing s1 = false /\ zoom s1 = zoom st0
                     /\ panOffset s1 = panOffset st0).
    { subst s1. unfold Canvas.handleMouseMove, updateElements.
      rewrite Htool, Hd, Hr, Hp, Ht. simpl.
      destruct (isDrawing s); simpl; destruct (resizeHandle s); simpl;
        repeat split; auto. }
    destruct Hflags as (Hp1 & Hd1 & Hr1 & Hz1 & Ho1).
    assert (Hrel1 :
      Forall2 (fun el el' =>
                 if String.eqb id (el_id el)
                 then movedBy (px (dragStart s1) - px p0)
                              (py (dragStart s1) - py p0) el el'
                 else el' = el)
              base (elements s1)).
    { rewrite He1, Hds1. clear IH He1.
      induction Hrel as [|el el' l l' Hel Hrest IHrel]; simpl;
        constructor; auto.
      unfold isSelectedId. rewrite Hsel.
      destruct (String.eqb id (el_id el)) eqn:E.
      - assert (Hid' : el_id el' = el_id el) by apply Hel.
        rewrite Hid', E.
        apply (movedBy_drag (ex := px (getMousePos canvas st0 ev) - px (dragStart s))
                            (ey := py (getMousePos canvas st0 ev) - py (dragStart s))
                            (dx := px (dragStart s) - px p0)
                            (dy := py (dragStart s) - py p0));
          [ring | ring | exact Hel].
      - subst el'. rewrite E. reflexivity. }
    rewrite <- Hs1 in Hsel.
    destruct (IH s1 Hp1 Hd1 Hr1 Hsel Hz1 Ho1 Hrel1)
      as (A & B & C & S & D & E & F).
    unfold Canvas.run in *. simpl in *.
    assert (Hlast :
      last (worldPositions canvas st0 moves) (dragStart s1)
      = match worldPositions canvas st0 moves with
        | [] => getMousePos canvas st0 ev
        | _ :: _ => last (worldPositions canvas st0 moves) (dragStart s)
        end).
    { rewrite Hds1. destruct (worldPositions canvas st0 moves) as [|q qs];
        [reflexivity|]. clear. revert q. induction qs as [|r qs IHq]; intros q.
      - reflexivity.
      - simpl in *. apply (IHq r). }
    rewrite Hlast in F.
    split; [exact A|]. split; [exact B|]. split; [exact C|].
    split; [exact S|].
    split; [exact (eq_trans D Hh1)|]. split; [exact (eq_trans E Hi1)|].
    exact F.
Qed.


(** ** Resizing a text *)

Lemma splitLines_nonempty (s : JsString) : splitLines s <> [].
Proof.
  destruct s as [|c rest]; simpl; [discriminate|].
  destruct (c =? newline)%N; [discriminate|].
  destruct (splitLines rest); discriminate.
Qed.

Lemma lineCount_ge_1 (txt : JsString) : 1 <= lineCount txt.
Proof.
  unfold lineCount.
  pose proof (splitLines_nonempty txt) as H.
  destruct (splitLines txt) as [|l ls]; [contradiction|].
  change 1 with (inject_Z 1). rewrite <- Zle_Qle. simpl List.length. lia.
Qed.


(** X22. Resizing a path changes nothing that is drawn or hit-tested: its
    points and payload, hence its bounding box, are the same after the
    resize updater; only its anchor, which nothing reads for a path, is set
    to the origin of the recomputed box. *)
Theorem path_resize_keeps_geometry (handle : Handle.t) (deltaX deltaY : Q)
    (el : CanvasElement) :
  isText el = false ->
  let el' := resizeElement handle deltaX deltaY el in
  el_data el' = el_data el
  /\ getElementBounds el' = getElementBounds el
  /\ drawsElement el' = drawsElement el
  /\ (forall pos, hits pos el' = hits pos el)
  /\ el_x el' = bx (resizeBounds handle (getElementBounds el) deltaX deltaY)
  /\ el_y el' = by_ (resizeBounds handle (getElementBounds el) deltaX deltaY).
Proof.
  unfold isText, Canvas.hits, Canvas.resizeElement, Canvas.getElementBounds,
    drawsElement.
  destruct el as [id [p0 ps c sz pr|txt c sz] x y wd ht sel ed]; simpl;
    [|discriminate].
  intros _. repeat split.
Qed.

(** ** Cursor *)

(** X23. The cursor follows [hoverHandle] before the tool: with any tool
    other than select a pointer move never changes [hoverHandle], so the
    cursor after the move is the cursor before it, and a resize cursor left
    from the select tool stays; with the select tool, a truthy selection
    present in the store and no drag or resize going on, the move sets
    [hoverHandle] to the handle that [getResizeHandle] reports for the first
    element with the selected id. *)
Theorem cursor_follows_hover_handle (props : Props)
    (canvas : option CanvasNode) (ev : MouseEvent) (st : State) :
  (activeTool props <> SelectTool ->
   hoverHandle (handleMouseMove props canvas ev st) = hoverHandle st
   /\ getCursorStyle props (handleMouseMove props canvas ev st)
      = getCursorStyle props st)
  /\ (forall element,
        activeTool props = SelectTool ->
        truthyOpt (selectedElement st) = true ->
        isDragging st = false -> isResizing st = false ->
        find (fun el => isSelectedId st (el_id el)) (elements st)
        = Some element ->
        hoverHandle (handleMouseMove props canvas ev st)
        = getResizeHandle st (getMousePos canvas st ev) element).
Proof.
  split.
  - intros Htool.
    assert (Hh : hoverHandle (handleMouseMove props canvas ev st)
                 = hoverHandle st).
    { unfold Canvas.handleMouseMove, updateElements.
      destruct (activeTool props); try contradiction; simpl;
        repeat break_branch; reflexivity. }
    split; [exact Hh|].
    unfold getCursorStyle. rewrite Hh.
    destruct (hoverHandle st) as [h|]; [reflexivity|].
    destruct (activeTool props); try contradiction; reflexivity.
  - intros element Htool Hsel Hd Hr Hfind.
    unfold Canvas.handleMouseMove, updateElements.
    rewrite Htool, Hsel, Hd, Hr. simpl. rewrite Hfind.
    repeat break_branch; reflexivity.
Qed.

(** ** Identifiers *)

Lemma idOk_map (f : CanvasElement -> CanvasElement)
    (els : list CanvasElement) :
  (forall el, el_id (f el) = el_id el) ->
  Forall idOk els -> Forall idOk (map f els).
Proof.
  intros Hf H. induction H; simpl; constructor; auto.
  unfold idOk in *. now rewrite Hf.
Qed.

Lemma idOk_filter (g : CanvasElement -> bool) (els : list CanvasElement) :
  Forall idOk els -> Forall idOk (filter g els).
Proof.
  intros H. induction H; simpl; [constructor|].
  destruct (g x); [constructor|]; auto.
Qed.

Lemma idOk_assignAt i (f : CanvasElement -> CanvasElement)
    (els : list CanvasElement) :
  (forall el, el_id (f el) = el_id el) ->
  Forall idOk els -> Forall idOk (assignAt i f els).
Proof.
  intros Hf H. revert i. induction H; intros [|i]; simpl; constructor; auto.
  unfold idOk in *. now rewrite Hf.
Qed.

Lemma idOk_push (h : list (list CanvasElement)) (k : nat)
    (x : list CanvasElement) :
  Forall (Forall idOk) h -> Forall idOk x ->
  Forall (Forall idOk) (firstn k h ++ [x]).
Proof.
  intros Hh Hx. apply Forall_app. split.
  - apply Forall_forall. intros y Hy.
    apply (proj1 (Forall_forall _ _) Hh).
    rewrite <- (firstn_skipn k h). apply in_or_app. now left.
  - constructor; [exact Hx | constructor].
Qed.

Lemma idOk_snapshot (h : list (list CanvasElement)) (k : nat)
    (x : list CanvasElement) :
  Forall (Forall idOk) h -> nth_error h k = Some x -> Forall idOk x.
Proof.
  intros Hh Hx. apply (proj1 (Forall_forall _ _) Hh).
  eapply nth_error_In; eauto.
Qed.

Lemma dragElement_id dx dy (el : CanvasElement) :
  el_id (dragElement dx dy el) = el_id el.
Proof. unfold dragElement. destruct (el_data el); reflexivity. Qed.

Lemma resizeElement_id h dx dy (el : CanvasElement) :
  el_id (resizeElement h dx dy el) = el_id el.
Proof. unfold Canvas.resizeElement. destruct (el_data el); reflexivity. Qed.

Lemma idOk_hit (els : list CanvasElement) (pos : Point)
    (element : CanvasElement) :
  Forall idOk els ->
  getElementAtPosition els pos = Some element ->
  truthy (el_id element) = true.
Proof.
  intros H Hhit. destruct (hit_element_in_store _ _ Hhit) as [Hin _].
  exact (proj1 (Forall_forall _ _) H _ Hin).
Qed.

Lemma idsOk_addToHistory (st acc : State) (newElements : list CanvasElement) :
  idsOk st -> Forall idOk newElements ->
  elements acc = newElements ->
  editingText acc = editingText st ->
  selectedElement acc = selectedElement st ->
  idsOk (addToHistory st newElements acc).
Proof.
  intros (He & Hh & Ht & Hs) Hn Hel Hed Hse.
  unfold idsOk, addToHistory. simpl.
  rewrite Hel, Hed, Hse.
  repeat split; auto. now apply idOk_push.
Qed.

Lemma handleMouseDown_idsOk props canvas now ev (st : State) :
  idsOk st -> idsOk (handleMouseDown props canvas now ev st).
Proof.
  intros H. pose proof H as (He & Hh & Ht & Hs).
  unfold Canvas.handleMouseDown, updateElements.
  destruct (_ || _); [exact H|].
  destruct (activeTool props); try exact H.
  - destruct (getElementAtPosition _ _) as [element|] eqn:Hhit.
    + pose proof (idOk_hit _ He Hhit) as Hid.
      destruct (isSelectedId st (el_id element)).
      * destruct (getResizeHandle _ _ _); [exact H|].
        destruct (el_data element); [exact H|].
        unfold idsOk. simpl. repeat split; auto.
        -- apply idOk_map; [reflexivity | exact He].
        -- intros id E. injection E as <-. exact Hid.
      * unfold idsOk. simpl. repeat split; auto.
        -- apply idOk_map; [reflexivity | exact He].
        -- intros id E. injection E as <-. exact Hid.
    + unfold idsOk. simpl. repeat split; auto.
      * apply idOk_map; [reflexivity | exact He].
      * discriminate.
  - destruct (getElementAtPosition _ _) as [element|]; [|exact H].
    unfold idsOk. simpl. repeat split; auto.
    + now apply idOk_filter.
    + apply idOk_push; [exact Hh | now apply idOk_filter].
  - unfold idsOk. simpl. repeat split; auto.
    intros id E. injection E as <-. reflexivity.
Qed.

Lemma handleMouseMove_idsOk props canvas ev (st : State) :
  idsOk st -> idsOk (handleMouseMove props canvas ev st).
Proof.
  intros (He & Hh & Ht & Hs).
  assert (Hdrag : forall dx dy,
            Forall idOk
              (map (fun el => if isSelectedId st (el_id el)
                              then dragElement dx dy el else el)
                   (elements st))).
  { intros dx dy. apply idOk_map; [|exact He].
    intros el. destruct (isSelectedId st (el_id el));
      [apply dragElement_id | reflexivity]. }
  assert (Hres : forall h dx dy (l : list CanvasElement),
            Forall idOk l ->
            Forall idOk
              (map (fun el => if isSelectedId st (el_id el)
                              then resizeElement h dx dy el else el) l)).
  { intros h dx dy l Hl. apply idOk_map; [|exact Hl].
    intros el. destruct (isSelectedId st (el_id el));
      [apply resizeElement_id | reflexivity]. }
  unfold Canvas.handleMouseMove, updateElements, idsOk.
  repeat break_branch; simpl; repeat split; auto.
Qed.

Lemma handleTextSubmit_idsOk props (st : State) :
  idsOk st -> idsOk (handleTextSubmit props st).
Proof.
  intros H. pose proof H as (He & Hh & Ht & Hs).
  unfold handleTextSubmit, closeOverlay.
  destruct (editingText st) as [editing|] eqn:Hed.
  - destruct (truthyText (trim (textInput st)) && truthy editing) eqn:Hg.
    + apply andb_true_iff in Hg. destruct Hg as [_ Hid].
      destruct (findIndex editing (elements st)) as [i|].
      * assert (Hn : Forall idOk
                       (assignAt i (fun el => with_editing false
                          (with_data (TextData (textInput st)
                                        (ds_color (drawingSettings props))
                                        (ds_size (drawingSettings props))) el))
                          (elements st)))
          by (apply idOk_assignAt; [reflexivity | exact He]).
        unfold idsOk. simpl. repeat split; auto; try discriminate.
        now apply idOk_push.
      * assert (Hn : Forall idOk
                       (elements st
                        ++ [mkElement editing
                              (TextData (textInput st)
                                 (ds_color (drawingSettings props))
                                 (ds_size (drawingSettings props)))
                              (px (textPosition st)) (py (textPosition st))
                              None None None (Some false)])).
        { apply Forall_app. split; [exact He|].
          constructor; [exact Hid | constructor]. }
        unfold idsOk. simpl. repeat split; auto; try discriminate.
        now apply idOk_push.
    + unfold idsOk. simpl. repeat split; auto; discriminate.
  - unfold idsOk. simpl. repeat split; auto; discriminate.
Qed.

Lemma handleMouseUp_idsOk props now (st : State) :
  idsOk st -> idsOk (handleMouseUp props now st).
Proof.
  intros H. pose proof H as (He & Hh & Ht & Hs).
  assert (Hnew : forall p0 ps,
            Forall idOk
              (elements st
               ++ [mkElement ("path-" ++ showN now)%string
                     (PathData p0 ps (ds_color (drawingSettings props))
                               (ds_size (drawingSettings props))
                               (ds_pressure (drawingSettings props)))
                     0 0 None None None None])).
  { intros p0 ps. apply Forall_app. split; [exact He|].
    constructor; [reflexivity | constructor]. }
  unfold handleMouseUp, idsOk.
  repeat break_branch; simpl; repeat split; auto;
    apply idOk_push; auto.
Qed.

Lemma step_idsOk evt (st : State) : idsOk st -> idsOk (step evt st).
Proof.
  intros H. pose proof H as (He & Hh & Ht & Hs).
  destruct evt; simpl.
  - now apply handleMouseDown_idsOk.
  - now apply handleMouseMove_idsOk.
  - now apply handleMouseUp_idsOk.
  - exact H.
  - unfold handleTextAreaBlur. destruct (truthyText _).
    + now apply handleTextSubmit_idsOk.
    + unfold idsOk, closeOverlay. simpl. repeat split; auto; discriminate.
  - unfold handleKeyDown. repeat break_branch; auto.
    + now apply handleTextSubmit_idsOk.
    + unfold idsOk, closeOverlay. simpl. repeat split; auto; discriminate.
  - unfold handleWheel, handleZoom. repeat break_branch; exact H.
  - unfold handleZoom. repeat break_branch; exact H.
  - unfold undo. destruct (0 <? historyIndex st)%nat; [|exact H].
    destruct (nth_error _ _) as [snap|] eqn:E; [|exact H].
    unfold idsOk. simpl. repeat split; auto; try discriminate.
    eapply idOk_snapshot; eauto.
  - unfold redo. destruct (_ <? _)%Z; [|exact H].
    destruct (nth_error _ _) as [snap|] eqn:E; [|exact H].
    unfold idsOk. simpl. repeat split; auto; try discriminate.
    eapply idOk_snapshot; eauto.
  - unfold clearCanvas, idsOk. simpl. repeat split; auto; try discriminate.
    apply idOk_push; auto.
Qed.

(** X24. Identifiers are never empty: in every reachable state the id of
    every element of the store and of every snapshot, the id being edited
    and the selected id are non-empty strings; hence the overlay is mounted
    exactly when [editingText] is set, and the truthiness tests on
    [editingText] and [selectedElement] only ever reject [null]. *)
Theorem reachable_ids_nonempty (st : State) :
  reachable st ->
  (forall el, In el (elements st) -> truthy (el_id el) = true)
  /\ (forall snapshot el,
        In snapshot (history st) -> In el snapshot ->
        truthy (el_id el) = true)
  /\ (overlayOpen st = true <-> editingText st <> None)
  /\ (truthyOpt (selectedElement st) = true <-> selectedElement st <> None).
Proof.
  intros Hr.
  assert (H : idsOk st).
  { induction Hr as [| evt st _ IH | cl st _ IHcl _ IH].
    - unfold idsOk. simpl.
      repeat split; auto; try discriminate; repeat constructor.
    - now apply step_idsOk.
    - destruct IH as (He & Hh & Ht & Hs). destruct IHcl as (_ & Hhc & _ & _).
      unfold clearCanvas, idsOk. simpl. repeat split; auto; try discriminate.
      apply idOk_push; auto. }
  destruct H as (He & Hh & Ht & Hs).
  split; [|split; [|split]].
  - intros el Hin. exact (proj1 (Forall_forall _ _) He _ Hin).
  - intros snapshot el Hs1 Hin.
    pose proof (proj1 (Forall_forall _ _) Hh _ Hs1) as Hsn.
    exact (proj1 (Forall_forall _ _) Hsn _ Hin).
  - unfold overlayOpen. destruct (editingText st) as [id|]; simpl.
    + rewrite (Ht id eq_refl). split; [discriminate | reflexivity].
    + split; [discriminate | intros E; now elim E].
  - destruct (selectedElement st) as [id|]; simpl.
    + rewrite (Hs id eq_refl). split; [discriminate | reflexivity].
    + split; [discriminate | intros E; now elim E].
Qed.

End Properties.

Lemma undo_redo_roundtrip_witness :
  let st := afterEvents (stroke 2) in
  List.length (elements st) = 1%nat
  /\ elements (redo (undo st)) = elements st
  /\ history (redo (undo st)) = history st
  /\ historyIndex (redo (undo st)) = historyIndex st.
Proof.
  intros st. split; [reflexivity|].
  apply (@undo_redo_roundtrip unit st).
  - apply (commits_push initialState (elements st) initialState).
    apply commits_init.
  - reflexivity.
Defined.

Lemma commit_truncates_redo_branch_witness :
  let cl := undo (afterEvents (stroke 2 ++ stroke 9)) in
  let st' := addToHistory cl [] cl in
  (historyIndex cl = 1%nat /\ List.length (history cl) = 3%nat)
  /\ history st' = firstn (historyIndex cl + 1) (history cl) ++ [[]]
  /\ List.length (history st') = (historyIndex cl + 2)%nat
  /\ historyIndex st' = (historyIndex cl + 1)%nat
  /\ (forall j, (j <= historyIndex cl)%nat ->
                nth_error (history st') j = nth_error (history cl) j)
  /\ nth_error (history st') (historyIndex st') = Some []
  /\ redo st' = st'.
Proof.
  intros cl st'. split; [split; reflexivity|].
  apply (@commit_truncates_redo_branch unit cl cl []).
  unfold validIndex. vm_compute. lia.
Defined.

Lemma zoom_to_cursor_witness :
  let c := mkCanvas (mkRect 10 20) true in
  let center := mkPoint 110 220 in
  let st := afterEvents (stroke 2) in
  let world := clientToWorld (rect c) st center in
  let st' := handleZoom (Some c) (1 # 2) (Some center) st in
  (px (worldToClient (rect c) st world) == px center
   /\ py (worldToClient (rect c) st world) == py center)
  /\ (px (worldToClient (rect c) st' world) == px center
      /\ py (worldToClient (rect c) st' world) == py center)
  /\ (forall canvas,
        handleZoom canvas (1 # 2) None st
        = setZoom (Qmax (1 # 10) (Qmin 5 (zoom st + (1 # 2)))) st
        /\ panOffset (handleZoom canvas (1 # 2) None st) = panOffset st).
Proof.
  intros c center st.
  apply (@zoom_to_cursor unit None c (1 # 2) center st).
  apply reachable_run. apply reach_init.
Defined.

Lemma pencil_release_appends_path_witness :
  let props := mkProps PencilTool demoSettings in
  let st := afterEvents strokeInProgress in
  let st' := handleMouseUp props 2%N st in
  let newElement :=
    mkElement "path-2"
              (PathData (mkPoint 0 0) [mkPoint 5 5; mkPoint 10 0] "#000000" 4 tt)
              0 0 None None None None in
  elements st' = elements st ++ [newElement]
  /\ points (el_data newElement) = currentPath st
  /\ history st'
     = firstn (historyIndex st + 1) (history st) ++ [elements st ++ [newElement]]
  /\ List.length (history st') = (historyIndex st + 2)%nat
  /\ historyIndex st' = (historyIndex st + 1)%nat
  /\ currentPath st' = []
  /\ isDrawing st' = false.
Proof.
  intros props st.
  apply (@pencil_release_appends_path unit props 2%N st
           (mkPoint 0 0) [mkPoint 5 5; mkPoint 10 0]).
  - unfold validIndex. vm_compute. lia.
  - reflexivity.
  - reflexivity.
  - reflexivity.
  - reflexivity.
Defined.

Lemma text_overlay_commit_or_discard_witness :
  let props := mkProps TextTool demoSettings in
  let st := afterEvents (typing (js "hi")) in
  let blurred := handleTextAreaBlur props st in
  editingText st = Some "text-7"%string
  /\ elements blurred
     = [mkElement "text-7" (TextData (js "hi") "#000000" 4) 3 4
                  None None None (Some false)]
  /\ history blurred = [[]; elements blurred]
  /\ historyIndex blurred = 1%nat
  /\ (forall shift,
        handleKeyDown props (mkKey "Escape" shift) st = closeOverlay st).
Proof.
  intros props st blurred.
  assert (Hv : validIndex st) by (unfold validIndex; vm_compute; lia).
  assert (He : editingText st = Some "text-7"%string) by reflexivity.
  assert (Hid : truthy "text-7" = true) by reflexivity.
  destruct (@text_overlay_commit_or_discard unit props st "text-7" Hv He Hid)
    as (Hesc & _ & _ & Hcommit & _).
  destruct (Hcommit eq_refl) as (Hh & _ & Hi & _ & Hnew & _).
  split; [exact He|].
  split; [exact (Hnew eq_refl)|].
  split; [exact Hh|].
  split; [exact Hi | exact Hesc].
Defined.

Lemma undo_redo_clear_selection_witness :
  let st := afterEvents (stroke 2 ++ selectAndRelease ++ stroke 9) in
  historyIndex (undo st) <> historyIndex st
  /\ (exists el, In el (elements (undo st)) /\ el_selected el = Some true)
  /\ selectedElement (undo st) = None
  /\ (forall el, drawsSelection (undo st) el = false)
  /\ (forall props canvas ev,
        elements (handleMouseMove None props canvas ev (undo st))
        = elements (undo st)).
Proof.
  intros st.
  assert (Hr : reachable None st) by (apply reachable_run; apply reach_init).
  assert (Hne : historyIndex (undo st) <> historyIndex st)
    by (vm_compute; lia).
  destruct (@undo_redo_clear_selection unit None st Hr) as [Hundo _].
  destruct (Hundo Hne) as (Hsel & Hchrome & Hdrag).
  split; [exact Hne|].
  split.
  - vm_compute. eexists. split; [left; reflexivity | reflexivity].
  - split; [exact Hsel | split; [exact Hchrome | exact Hdrag]].
Defined.

(** A blur with a single space in the overlay: the content is not empty,
    yet nothing is committed. *)
Lemma blur_whitespace_only_discards :
  let props := mkProps TextTool demoSettings in
  let st := afterEvents (typing (js " ")) in
  let blurred := handleTextAreaBlur props st in
  editingText st = Some "text-7"%string
  /\ textInput st = js " "
  /\ textInput st <> []
  /\ ~ (exists el, elements blurred = elements st ++ [el])
  /\ elements blurred = elements st
  /\ history blurred = history st
  /\ historyIndex blurred = historyIndex st.
Proof.
  intros props st blurred.
  split; [reflexivity|].
  split; [reflexivity|].
  split; [discriminate|].
  split; [|repeat split].
  intros [el H]. vm_compute in H. discriminate H.
Qed.

(** A release while a pan is in progress: the middle button was pressed
    during the stroke, so the state is a drawing state with three
    in-progress points, yet the release appends nothing, pushes nothing and
    leaves the stroke in progress; it only ends the pan. *)
Lemma release_during_pan_appends_nothing :
  let props := mkProps PencilTool demoSettings in
  let st := strokeThenPanPress in
  let st' := handleMouseUp props 3%N st in
  reachable None st
  /\ isDrawing st = true
  /\ activeTool props = PencilTool
  /\ currentPath st = [mkPoint 0 0; mkPoint 5 5; mkPoint 10 0]
  /\ isPanning st = true
  /\ ~ (exists el, elements st' = elements st ++ [el])
  /\ elements st' = elements st
  /\ history st' = history st
  /\ historyIndex st' = historyIndex st
  /\ currentPath st' = currentPath st
  /\ isDrawing st' = true
  /\ st' = setIsPanning false st.
Proof.
  intros props st st'.
  split; [apply reachable_run; apply reach_init|].
  split; [reflexivity|]. split; [reflexivity|].
  split; [vm_compute; reflexivity|]. split; [reflexivity|].
  split; [|repeat split].
  intros [el H]. vm_compute in H. discriminate H.
Qed.

(** The same with white space outside ASCII: a no-break space, a byte order
    mark and a line separator are all stripped by [trim], so the blur
    discards. *)
Lemma blur_unicode_white_space_discards :
  let props := mkProps TextTool demoSettings in
  let st := afterEvents (typing [160; 65279; 8232]%N) in
  handleTextAreaBlur props st = closeOverlay st
  /\ elements (handleTextAreaBlur props st) = elements st
  /\ history (handleTextAreaBlur props st) = history st.
Proof.
  intros props st.
  assert (H : handleTextAreaBlur props st = closeOverlay st)
    by (apply handleTextAreaBlur_discards; reflexivity).
  rewrite H. repeat split.
Qed.

Lemma sameBounds_spec (a b : Bounds) :
  sameBounds a b = true <->
  bx a == bx b /\ by_ a == by_ b /\ bwidth a == bwidth b
  /\ bheight a == bheight b.
Proof.
  unfold sameBounds. rewrite !andb_true_iff, !Qeq_bool_iff. tauto.
Qed.

(** C4. For the se and the nw handle the resize gives the expected box,
    but the four edge handles, which [getResizeHandle] reports and a press
    turns into a resize, have no case in the [switch]: with a box
    (0,0,50,50) and a pointer delta of (+10,+10) the recomputed box, and the
    box of the element after the move, are still (0,0,50,50). *)
Theorem edge_handle_resize_changes_nothing :
  let box := mkBounds 0 0 50 50 in
  sameBounds (getElementBounds None boxText) box = true
  /\ (px (getMousePos demoCanvas (resizingWith Handle.e) (at_ 65 35))
      - px (dragStart (resizingWith Handle.e)) == 10
      /\ py (getMousePos demoCanvas (resizingWith Handle.e) (at_ 65 35))
         - py (dragStart (resizingWith Handle.e)) == 10)
  /\ (map (sameBounds (mkBounds 0 0 60 60)) (boxesAfterResize Handle.se) = [true]
      /\ map (sameBounds (mkBounds 10 10 40 40)) (boxesAfterResize Handle.nw)
         = [true])
  /\ (resizeBounds Handle.n box 10 10 = box
      /\ resizeBounds Handle.s box 10 10 = box
      /\ resizeBounds Handle.w box 10 10 = box
      /\ resizeBounds Handle.e box 10 10 = box)
  /\ (map (sameBounds box) (boxesAfterResize Handle.n) = [true]
      /\ map (sameBounds box) (boxesAfterResize Handle.s) = [true]
      /\ map (sameBounds box) (boxesAfterResize Handle.w) = [true]
      /\ map (sameBounds box) (boxesAfterResize Handle.e) = [true]).
Proof.
  intros box.
  repeat split; vm_compute; reflexivity.
Qed.

(** * Scenarios for the further properties *)

Lemma redo_undo_roundtrip_witness :
  let st := undo twoStrokes in
  (historyIndex st = 1%nat /\ List.length (history st) = 3%nat)
  /\ elements (undo (redo st)) = elements st
  /\ history (undo (redo st)) = history st
  /\ historyIndex (undo (redo st)) = historyIndex st.
Proof.
  intros st. split; [split; reflexivity|].
  apply (@redo_undo_roundtrip unit st).
  - vm_compute. lia.
  - reflexivity.
Defined.

Lemma undo_redo_walk_witness :
  (historyIndex twoStrokes = 2%nat
   /\ elements (undoTimes 5 twoStrokes) = []
   /\ historyIndex (redoTimes 5 (undoTimes 5 twoStrokes)) = 2%nat)
  /\ (history (undoTimes 5 twoStrokes) = history twoStrokes
      /\ historyIndex (undoTimes 5 twoStrokes)
         = (historyIndex twoStrokes - 5)%nat
      /\ nth_error (history twoStrokes) (historyIndex twoStrokes - 5)
         = Some (elements (undoTimes 5 twoStrokes)))
  /\ (history (redoTimes 5 twoStrokes) = history twoStrokes
      /\ historyIndex (redoTimes 5 twoStrokes)
         = Nat.min (historyIndex twoStrokes + 5)
                   (List.length (history twoStrokes) - 1)
      /\ nth_error (history twoStrokes)
                   (Nat.min (historyIndex twoStrokes + 5)
                            (List.length (history twoStrokes) - 1))
         = Some (elements (redoTimes 5 twoStrokes))).
Proof.
  split; [vm_compute; repeat split|].
  apply (@undo_redo_walk unit 5 twoStrokes).
  - unfold validIndex. vm_compute. lia.
  - vm_compute. reflexivity.
Defined.

Lemma buttons_disabled_iff_noop_witness :
  undoDisabled twoStrokes = false
  /\ redoDisabled twoStrokes = true
  /\ redo twoStrokes = twoStrokes
  /\ historyIndex (undo twoStrokes) = 1%nat
  /\ toasts (undo twoStrokes) = ["Undone!"%string].
Proof.
  assert (Hv : validIndex twoStrokes) by (unfold validIndex; vm_compute; lia).
  destruct (@buttons_disabled_iff_noop unit twoStrokes Hv)
    as (_ & [Hredo _] & Hundo & _).
  split; [reflexivity|]. split; [reflexivity|].
  split; [exact (Hredo eq_refl)|].
  exact (Hundo eq_refl).
Defined.

Lemma past_snapshots_are_kept_witness :
  let release := MouseUp (mkProps PencilTool demoSettings) 9%N in
  let drawing := afterEvents (stroke 2 ++ strokeInProgress) in
  (nth_error (history (step None release drawing)) 1
   = nth_error (history drawing) 1
   /\ List.length (history (step None release drawing)) = 3%nat)
  /\ (historyIndex dragMoved = 1%nat
      /\ historyIndex dragReleased = 2%nat
      /\ nth_error (history dragReleased) 2 = Some (elements dragReleased)
      /\ elements dragReleased <> [])
  /\ nth_error (history (clearCanvas dragMoved dragReleased)) 1
     = nth_error (history dragMoved) 1
  /\ nth_error (history (clearCanvas dragMoved dragReleased))
               (historyIndex dragMoved + 1)
     = Some [].
Proof.
  intros release drawing.
  destruct (@past_snapshots_are_kept unit None) as (Hevt & Hkeep & Hclear).
  assert (Hv : validIndex dragMoved) by (unfold validIndex; vm_compute; lia).
  split; [split|split; [|split]].
  - apply Hevt.
    + discriminate.
    + unfold validIndex. vm_compute. lia.
    + vm_compute. lia.
  - vm_compute. reflexivity.
  - vm_compute. repeat split. discriminate.
  - apply Hkeep; [exact Hv | vm_compute; lia].
  - apply (Hclear dragMoved dragReleased Hv).
Defined.





Lemma select_press_marks_target_only_witness :
  let props := mkProps SelectTool demoSettings in
  let st := afterEvents (stroke 2) in
  let st' := handleMouseDown None props demoCanvas 3%N (at_ 5 2) st in
  selectedElement st' = Some "path-2"%string
  /\ isDragging st' = true
  /\ map (@el_selected unit) (elements st') = [Some true].
Proof.
  intros props st.
  destruct (@select_press_marks_target_only unit None props demoCanvas 3%N
              (at_ 5 2) st)
    as [Hhit _]; try reflexivity.
  assert (Hel : exists el, getElementAtPosition None (elements st)
                             (getMousePos demoCanvas st (at_ 5 2)) = Some el
                           /\ el_id el = "path-2"%string)
    by (vm_compute; eauto).
  destruct Hel as (el & Hel & Hid).
  destruct (Hhit el Hel) as (Hs & Hd & _ & He & _).
  - unfold isSelectedId. reflexivity.
  - rewrite Hid in Hs. split; [exact Hs | split; [exact Hd|]].
    rewrite He, Hid. vm_compute. reflexivity.
Defined.

Lemma eraser_press_removes_hit_element_witness :
  let props := mkProps EraserTool demoSettings in
  let st' := handleMouseDown None props demoCanvas 3%N (at_ 5 2) twoStrokes in
  map (@el_id unit) (elements twoStrokes) = ["path-2"; "path-9"]%string
  /\ map (@el_id unit) (elements st') = ["path-2"%string]
  /\ List.length (history st') = 4%nat
  /\ toasts st' = ["Element erased!"%string].
Proof.
  intros props.
  destruct (@eraser_press_removes_hit_element unit None props demoCanvas 3%N
              (at_ 5 2) twoStrokes)
    as [Hhit _]; try reflexivity.
  assert (Hel : exists el, getElementAtPosition None (elements twoStrokes)
                             (getMousePos demoCanvas twoStrokes (at_ 5 2))
                           = Some el
                           /\ el_id el = "path-9"%string)
    by (vm_compute; eauto).
  destruct Hel as (el & Hel & Hid).
  destruct (Hhit el Hel) as (He & _ & _ & Hh & Ht).
  split; [reflexivity|].
  split; [rewrite He, Hid; vm_compute; reflexivity|].
  split; [rewrite Hh; vm_compute; reflexivity | exact Ht].
Defined.

Lemma cancelled_edit_leaves_text_hidden_witness :
  let props := mkProps SelectTool demoSettings in
  let st1 := handleMouseDown None props demoCanvas 1%N (at_ 25 25)
                             textSelected in
  let st2 := handleKeyDown props (mkKey "Escape" false) st1 in
  (editingText st1 = Some "text-1"%string)
  /\ editingText st2 = None
  /\ map drawsElement (elements st2) = [false]
  /\ map (drawsSelection st2) (elements st2) = [false].
Proof.
  intros props st1 st2.
  set (txt := js "aaaaa" ++ newline :: js "b" ++ newline :: js "c").
  assert (Hhit : getElementAtPosition None (elements textSelected)
                   (getMousePos demoCanvas textSelected (at_ 25 25))
                 = Some boxText) by (vm_compute; reflexivity).
  assert (Hsel : isSelectedId textSelected (el_id boxText) = true)
    by reflexivity.
  assert (Hh : getResizeHandle None textSelected
                 (getMousePos demoCanvas textSelected (at_ 25 25)) boxText
               = None) by (vm_compute; reflexivity).
  destruct (@cancelled_edit_leaves_text_hidden unit None props props demoCanvas
              1%N (at_ 25 25) false textSelected boxText txt "#000000" (5 # 3)
              eq_refl eq_refl eq_refl Hhit Hsel Hh eq_refl)
    as ((He1 & _) & He2 & Hels & _).
  split; [exact He1 | split; [exact He2|]].
  subst st2 st1. rewrite Hels. vm_compute. split; reflexivity.
Defined.

Lemma edit_then_enter_updates_in_place_witness :
  let props := mkProps SelectTool demoSettings in
  let st1 := handleMouseDown None props demoCanvas 1%N (at_ 25 25)
                             textSelected in
  let st2 := handleKeyDown props (mkKey "Enter" false) st1 in
  List.length (elements st2) = List.length (elements textSelected)
  /\ editingText st2 = None
  /\ history st2
     = firstn (historyIndex textSelected + 1) (history textSelected)
       ++ [elements st2].
Proof.
  intros props st1 st2.
  set (txt := js "aaaaa" ++ newline :: js "b" ++ newline :: js "c").
  assert (Hhit : getElementAtPosition None (elements textSelected)
                   (getMousePos demoCanvas textSelected (at_ 25 25))
                 = Some boxText) by (vm_compute; reflexivity).
  assert (Hsel : isSelectedId textSelected (el_id boxText) = true)
    by reflexivity.
  assert (Hh : getResizeHandle None textSelected
                 (getMousePos demoCanvas textSelected (at_ 25 25)) boxText
               = None) by (vm_compute; reflexivity).
  destruct (@edit_then_enter_updates_in_place unit None props props demoCanvas
              1%N (at_ 25 25) textSelected boxText txt "#000000" (5 # 3)
              eq_refl eq_refl eq_refl Hhit Hsel Hh eq_refl eq_refl eq_refl)
    as (Hlen & He & Hh2 & _).
  split; [exact Hlen | split; [exact He | exact Hh2]].
Defined.

Lemma undo_after_push_restores_snapshot_witness :
  let release := MouseUp (mkProps PencilTool demoSettings) 9%N in
  let drawing := afterEvents (stroke 2 ++ strokeInProgress) in
  (historyIndex (step None release drawing)
   = (historyIndex drawing + 1)%nat
   /\ historyIndex (undo (step None release drawing)) = historyIndex drawing
   /\ nth_error (history drawing) (historyIndex drawing)
      = Some (elements (undo (step None release drawing)))
   /\ selectedElement (undo (step None release drawing)) = None)
  /\ (historyIndex dragReleased = 2%nat
      /\ historyIndex dragMoved = 1%nat)
  /\ (historyIndex (clearCanvas dragMoved dragReleased)
      = (historyIndex dragMoved + 1)%nat
      /\ historyIndex (undo (clearCanvas dragMoved dragReleased))
         = historyIndex dragMoved
      /\ nth_error (history dragMoved) (historyIndex dragMoved)
         = Some (elements (undo (clearCanvas dragMoved dragReleased)))
      /\ selectedElement (undo (clearCanvas dragMoved dragReleased)) = None).
Proof.
  intros release drawing.
  destruct (@undo_after_push_restores_snapshot unit None) as (Hevt & Hclear).
  split; [|split].
  - apply Hevt.
    + discriminate.
    + unfold validIndex. vm_compute. lia.
    + vm_compute. discriminate.
  - vm_compute. split; reflexivity.
  - apply Hclear. unfold validIndex. vm_compute. lia.
Defined.

Lemma pencil_gesture_appends_stroke_witness :
  let props := mkProps PencilTool demoSettings in
  let st' := run None (strokeGesture props demoCanvas 1%N 2%N (at_ 0 0)
                                     [at_ 5 5; at_ 10 0])
                 (@initialState unit) in
  let stroke :=
    mkElement "path-2"
              (PathData (getMousePos demoCanvas (@initialState unit) (at_ 0 0))
                        (worldPositions demoCanvas (@initialState unit)
                                        [at_ 5 5; at_ 10 0])
                        "#000000" 4 tt)
              0 0 None None None None in
  elements st' = [] ++ [stroke]
  /\ history st' = firstn (0 + 1) [[]] ++ [[] ++ [stroke]]
  /\ currentPath st' = []
  /\ isDrawing st' = false
  /\ zoom st' = 1
  /\ panOffset st' = mkPoint 0 0.
Proof.
  intros props.
  apply (@pencil_gesture_appends_stroke unit None props demoCanvas 1%N 2%N
           (at_ 0 0) [at_ 5 5; at_ 10 0] initialState); reflexivity.
Defined.



Lemma path_resize_keeps_geometry_witness :
  let el := mkElement "path-1"
              (PathData (mkPoint 0 0) [mkPoint 50 50] "#000000" 4 tt)
              0 0 None None (Some true) None in
  let el' := resizeElement None Handle.se 10 10 el in
  el_data el' = el_data el
  /\ getElementBounds None el' = getElementBounds None el
  /\ drawsElement el' = drawsElement el
  /\ (forall pos, hits None pos el' = hits None pos el)
  /\ el_x el' = bx (resizeBounds Handle.se (getElementBounds None el) 10 10)
  /\ el_y el' = by_ (resizeBounds Handle.se (getElementBounds None el) 10 10).
Proof.
  intros el.
  apply (@path_resize_keeps_geometry unit None Handle.se 10 10 el).
  reflexivity.
Defined.

Lemma reachable_ids_nonempty_witness :
  (forall el, In el (elements draggingStroke) -> truthy (el_id el) = true)
  /\ (forall snapshot el,
        In snapshot (history draggingStroke) -> In el snapshot ->
        truthy (el_id el) = true)
  /\ (overlayOpen draggingStroke = true <-> editingText draggingStroke <> None)
  /\ (truthyOpt (selectedElement draggingStroke) = true
      <-> selectedElement draggingStroke <> None).
Proof.
  apply (@reachable_ids_nonempty unit None draggingStroke).
  apply reachable_run. apply reach_init.
Defined.

End Canvas.
